(** * mcp-devin: the tool dispatcher of the Devin MCP server

    A shallow embedding of the server with Slack integration: the helpers
    [normalizeSessionId], [getChannelId], [sendSlackMessage] and the
    [CallToolRequestSchema] handler.  The handler of the server without
    Slack is embedded next to it, in the module [Plain].

    - JavaScript values are an inductive type [value]; objects are association
      lists in property order, because [JSON.stringify] prints in that order.
    - Strings are [string]: sequences of code units below 256.
    - Numbers are [NaN] or an integral double printed in plain decimal;
      the runtime's string-to-number conversion is a section variable.
    - Outbound calls (axios, the Slack Web client) and [console.error] are
      events appended to a trace; the outside world answers every call from
      the history of the events before it.
    - [throw] / [try]-[catch] are an error monad layered on the trace. *)

From Stdlib Require Import Bool Arith ZArith List Ascii String Lia.
From Stdlib Require Import DecimalString.
Import ListNotations.
Open Scope list_scope.
Open Scope string_scope.

Set Warnings "-register-all".

(* ================================================================= *)
(** ** Strings *)

Module Str.

(** Line feed, the separator [JSON.stringify] uses when it indents. *)
Definition nl : string := String (ascii_of_nat 10) "".

(** [s.startsWith(p)]. *)
Fixpoint startsWith (p s : string) : bool :=
  match p with
  | EmptyString => true
  | String a p' =>
      match s with
      | EmptyString => false
      | String b s' => if Ascii.eqb a b then startsWith p' s' else false
      end
  end.

(** [s.includes(sub)]: [sub] occurs somewhere in [s]. *)
Fixpoint includes (sub s : string) : bool :=
  if startsWith sub s then true
  else match s with
       | EmptyString => false
       | String _ s' => includes sub s'
       end.

(** [s.substring(1)]. *)
Definition tail (s : string) : string :=
  match s with
  | EmptyString => EmptyString
  | String _ s' => s'
  end.

(** [parts.join(sep)]. *)
Fixpoint join (sep : string) (parts : list string) : string :=
  match parts with
  | [] => ""
  | [p] => p
  | p :: ps => p ++ sep ++ join sep ps
  end.

Definition is_empty (s : string) : bool :=
  match s with EmptyString => true | _ => false end.

Fixpoint forallb (p : ascii -> bool) (s : string) : bool :=
  match s with
  | EmptyString => true
  | String c s' => p c && forallb p s'
  end.

End Str.

(* ================================================================= *)
(** ** Regular expressions

    The two patterns of the source, [/^devin-/] and [/^[C][A-Z0-9]{8,}$/],
    are built from anchors, literal characters, character classes and a
    class under the greedy quantifier [{n,}].  Neither has a flag, so [^] and
    [$] only match at the two ends of the input. *)

Module Regex.

Definition range := (ascii * ascii)%type.

Inductive atom : Type :=
| Bol                                   (* ^ *)
| Eol                                   (* $ *)
| Chr (c : ascii)                       (* a literal character *)
| Cls (rs : list range)                 (* [a-bc-d] *)
| ClsMin (rs : list range) (n : nat).   (* [a-bc-d]{n,} *)

Definition regex := list atom.

Definition in_range (c : ascii) (r : range) : bool :=
  Nat.leb (nat_of_ascii (fst r)) (nat_of_ascii c)
  && Nat.leb (nat_of_ascii c) (nat_of_ascii (snd r)).

Definition in_class (rs : list range) (c : ascii) : bool :=
  existsb (in_range c) rs.

(** Backtracking match of [re] at the current position; [bol] tells
    whether that position is the start of the input.  The result is the
    input left after the match. *)
Fixpoint match_here (re : regex) (bol : bool) (s : string) : option string :=
  match re with
  | [] => Some s
  | Bol :: re' => if bol then match_here re' bol s else None
  | Eol :: re' =>
      match s with
      | EmptyString => match_here re' bol s
      | String _ _ => None
      end
  | Chr c :: re' =>
      match s with
      | String d t => if Ascii.eqb c d then match_here re' false t else None
      | EmptyString => None
      end
  | Cls rs :: re' =>
      match s with
      | String d t => if in_class rs d then match_here re' false t else None
      | EmptyString => None
      end
  | ClsMin rs n :: re' =>
      (fix rep (n : nat) (bol : bool) (s : string) {struct s} : option string :=
         let stop := match n with O => match_here re' bol s | S _ => None end in
         match s with
         | String d t =>
             if in_class rs d then
               match rep (pred n) false t with
               | Some r => Some r
               | None => stop
               end
             else stop
         | EmptyString => stop
         end) n bol s
  end.

(** The leftmost match: the text before it and the text after it. *)
Fixpoint search (re : regex) (bol : bool) (s : string) : option (string * string) :=
  match match_here re bol s with
  | Some rest => Some ("", rest)
  | None =>
      match s with
      | EmptyString => None
      | String c t =>
          match search re false t with
          | Some (pre, post) => Some (String c pre, post)
          | None => None
          end
      end
  end.

(** [re.test(s)]. *)
Definition test (re : regex) (s : string) : bool :=
  match search re true s with Some _ => true | None => false end.

(** [s.replace(re, repl)] for a pattern without the [g] flag and a
    replacement text without [$] patterns: the leftmost match is replaced. *)
Definition replace (re : regex) (repl s : string) : string :=
  match search re true s with
  | Some (pre, post) => pre ++ repl ++ post
  | None => s
  end.

Definition lit (s : string) : regex := map Chr (list_ascii_of_string s).

End Regex.

(* ================================================================= *)
(** ** JavaScript values *)

(** A number is [NaN] or [Int z], an integral double of magnitude below
    1e21 (the range JavaScript prints in plain decimal).  Fractions, the
    infinities and larger magnitudes are outside the model: no statement
    below speaks of them. *)
Inductive number : Type :=
| NaN
| Int (z : Z).

Inductive value : Type :=
| VUndefined
| VNull
| VBool (b : bool)
| VNum (n : number)
| VStr (s : string)
| VArr (elems : list value)
| VObj (props : list (string * value)).

Definition object := list (string * value).

(** What the code can throw and catch: an axios error, with the upstream
    response when there was one, or an ordinary [Error] (name and message). *)
Record HttpResponse : Type := mkResponse { status : Z; data : value }.

Inductive exn : Type :=
| AxiosError (message : string) (response : option HttpResponse)
| Error (name message : string).

Inductive Outcome (A : Type) : Type :=
| Ok (a : A)
| Throw (e : exn).
Arguments Ok {A} a.
Arguments Throw {A} e.

Module Js.

Definition number_to_string (n : number) : string :=
  match n with
  | NaN => "NaN"
  | Int z => NilZero.string_of_int (Z.to_int z)
  end.

Definition number_truthy (n : number) : bool :=
  match n with
  | NaN => false
  | Int z => negb (Z.eqb z 0)
  end.

(** [Boolean(v)], the test of [if (v)], [!v], [v || w] and [v && w]. *)
Definition truthy (v : value) : bool :=
  match v with
  | VUndefined | VNull => false
  | VBool b => b
  | VNum n => number_truthy n
  | VStr s => negb (Str.is_empty s)
  | VArr _ | VObj _ => true
  end.

(** The text [String(v)] and a template literal give when the conversion
    returns; [Convert.to_string] says when it throws instead. *)
Fixpoint ToString (v : value) : string :=
  match v with
  | VUndefined => "undefined"
  | VNull => "null"
  | VBool true => "true"
  | VBool false => "false"
  | VNum n => number_to_string n
  | VStr s => s
  | VArr l =>
      Str.join ","
        (map (fun e => match e with
                       | VUndefined | VNull => ""
                       | _ => ToString e
                       end) l)
  | VObj _ => "[object Object]"
  end.

(** [a || b]. *)
Definition or (a b : value) : value := if truthy a then a else b.

(** [v === "s"] for a string literal. *)
Definition is_string (s : string) (v : value) : bool :=
  match v with VStr t => String.eqb t s | _ => false end.

(** Own properties of an object literal or of parsed JSON. *)
Fixpoint lookup (k : string) (o : object) : option value :=
  match o with
  | [] => None
  | (k', v) :: o' => if String.eqb k k' then Some v else lookup k o'
  end.

Definition get (o : object) (k : string) : value :=
  match lookup k o with Some v => v | None => VUndefined end.

(** [o.k = v]: an existing property keeps its place, a new one goes last. *)
Fixpoint set (k : string) (v : value) (o : object) : object :=
  match o with
  | [] => [(k, v)]
  | (k', v') :: o' =>
      if String.eqb k k' then (k, v) :: o' else (k', v') :: set k v o'
  end.

(** [v.k], for the property names the source reads (none of them is
    inherited from a prototype): reading from [undefined] or [null] throws. *)
Definition member (v : value) (k : string) : Outcome value :=
  match v with
  | VUndefined =>
      Throw (Error "TypeError"
               ("Cannot read properties of undefined (reading '" ++ k ++ "')"))
  | VNull =>
      Throw (Error "TypeError"
               ("Cannot read properties of null (reading '" ++ k ++ "')"))
  | VObj o => Ok (get o k)
  | _ => Ok VUndefined
  end.

(** [v?.k]. *)
Definition opt_member (v : value) (k : string) : value :=
  match v with
  | VObj o => get o k
  | _ => VUndefined
  end.

(** The keys ["0"], ["1"], ... of an array or a string under spread. *)
Fixpoint indexed (i : nat) (l : list value) : object :=
  match l with
  | [] => []
  | v :: l' => (NilZero.string_of_uint (Nat.to_uint i), v) :: indexed (S i) l'
  end.

(** [{ ...v }]: the own enumerable properties of [v]. *)
Definition spread (v : value) : object :=
  match v with
  | VObj o => o
  | VArr l => indexed 0 l
  | VStr s => indexed 0 (map (fun c => VStr (String c "")) (list_ascii_of_string s))
  | _ => []
  end.

(** [String(error)] / [`${error}`]. *)
Definition error_to_string (e : exn) : string :=
  let render name msg :=
    if Str.is_empty name then msg
    else if Str.is_empty msg then name
    else name ++ ": " ++ msg in
  match e with
  | AxiosError msg _ => render "AxiosError" msg
  | Error name msg => render name msg
  end.

End Js.

(* ================================================================= *)
(** ** JSON.stringify *)

Module JSON.

Definition hex_digit (n : nat) : ascii :=
  match n with
  | 0 => "0" | 1 => "1" | 2 => "2" | 3 => "3" | 4 => "4" | 5 => "5"
  | 6 => "6" | 7 => "7" | 8 => "8" | 9 => "9" | 10 => "a" | 11 => "b"
  | 12 => "c" | 13 => "d" | 14 => "e" | _ => "f"
  end%char.

Definition escape_char (c : ascii) : string :=
  let n := nat_of_ascii c in
  if Nat.eqb n 34 then "\" ++ String c ""
  else if Nat.eqb n 92 then "\\"
  else if Nat.eqb n 8 then "\b"
  else if Nat.eqb n 12 then "\f"
  else if Nat.eqb n 10 then "\n"
  else if Nat.eqb n 13 then "\r"
  else if Nat.eqb n 9 then "\t"
  else if Nat.ltb n 32 then
    "\u00" ++ String (hex_digit (n / 16)) (String (hex_digit (n mod 16)) "")
  else String c "".

Fixpoint escape (s : string) : string :=
  match s with
  | EmptyString => ""
  | String c s' => escape_char c ++ escape s'
  end.

Definition dq : string := String (ascii_of_nat 34) "".

(** QuoteJSONString. *)
Definition quote (s : string) : string := dq ++ escape s ++ dq.

(** The brackets around the members of an array or object. *)
Definition wrap (l r gap indent : string) (parts : list string) : string :=
  match parts with
  | [] => l ++ r
  | _ =>
      if Str.is_empty gap then l ++ Str.join "," parts ++ r
      else
        let inner := indent ++ gap in
        l ++ Str.nl ++ inner ++ Str.join ("," ++ Str.nl ++ inner) parts
          ++ Str.nl ++ indent ++ r
  end.

Definition colon (gap : string) : string :=
  if Str.is_empty gap then ":" else ": ".

(** SerializeJSONProperty: [None] is [undefined]. *)
Fixpoint serialize (gap indent : string) (v : value) {struct v} : option string :=
  match v with
  | VUndefined => None
  | VNull => Some "null"
  | VBool true => Some "true"
  | VBool false => Some "false"
  | VNum NaN => Some "null"
  | VNum n => Some (Js.number_to_string n)
  | VStr s => Some (quote s)
  | VArr l =>
      Some (wrap "[" "]" gap indent
              (map (fun e => match serialize gap (indent ++ gap) e with
                             | Some s => s
                             | None => "null"
                             end) l))
  | VObj o =>
      Some (wrap "{" "}" gap indent
              (flat_map (fun kv => match kv with
                                   | (k, e) =>
                                       match serialize gap (indent ++ gap) e with
                                       | Some s => [quote k ++ colon gap ++ s]
                                       | None => []
                                       end
                                   end) o))
  end.

(** [JSON.stringify(v)]. *)
Definition stringify (v : value) : option string := serialize "" "" v.

(** [JSON.stringify(v, null, 2)]. *)
Definition stringify2 (v : value) : option string := serialize "  " "" v.

(** The text a template literal shows for [${JSON.stringify(v)}]. *)
Definition show (o : option string) : string :=
  match o with Some s => s | None => "undefined" end.

End JSON.

(* ================================================================= *)
(** ** Effects: outbound calls, the trace and exceptions *)

(** Everything the handler does to the outside, in the order it does it. *)
Inductive Event : Type :=
| AxiosPost (url : string) (body : value) (headers : object)
| AxiosGet (url : string) (params : object) (headers : object)
| ConversationsList
| UsersList
| ChatPostMessage (channel : value) (text : string) (thread_ts : value) (as_user : bool)
| ConsoleError (message : string) (error : option exn).

Definition Trace := list Event.

(** The two services.  Each answer may depend on everything that happened
    before the call.  An axios call resolves to a response or throws; a
    Slack Web client call resolves to its result object or throws.
    With its default status validation, which the server never overrides,
    axios resolves only with a status in [200, 300) and throws an axios
    error that carries the response for any other status: a statement that
    depends on a resolved status carries that range as a hypothesis. *)
Record World : Type := mkWorld {
  axios_post : Trace -> string -> value -> object -> Outcome HttpResponse;
  axios_get : Trace -> string -> object -> object -> Outcome HttpResponse;
  conversations_list : Trace -> Outcome object;
  users_list : Trace -> Outcome object;
  chat_postMessage : Trace -> value -> string -> value -> bool -> Outcome object
}.

(** A computation reads the world, extends the trace and returns or throws. *)
Definition M (A : Type) : Type := World -> Trace -> Outcome A * Trace.

Definition ret {A} (a : A) : M A := fun _ tr => (Ok a, tr).

Definition throw {A} (e : exn) : M A := fun _ tr => (Throw e, tr).

Definition bind {A B} (m : M A) (k : A -> M B) : M B :=
  fun w tr =>
    match m w tr with
    | (Ok a, tr') => k a w tr'
    | (Throw e, tr') => (Throw e, tr')
    end.

(** [try { m } catch (e) { h e }]. *)
Definition try_catch {A} (m : M A) (h : exn -> M A) : M A :=
  fun w tr =>
    match m w tr with
    | (Ok a, tr') => (Ok a, tr')
    | (Throw e, tr') => h e w tr'
    end.

(** A step that cannot touch the world but may throw. *)
Definition lift {A} (o : Outcome A) : M A := fun _ tr => (o, tr).

Definition obind {A B} (o : Outcome A) (k : A -> Outcome B) : Outcome B :=
  match o with
  | Ok a => k a
  | Throw e => Throw e
  end.

Declare Scope js_scope.
Delimit Scope js_scope with js.
Notation "x <- m ;; k" := (bind m (fun x => k))
  (at level 61, m at next level, right associativity) : js_scope.
Notation "m ;;; k" := (bind m (fun _ => k))
  (at level 61, right associativity) : js_scope.
Notation "x <-! o ;; k" := (obind o (fun x => k))
  (at level 61, o at next level, right associativity) : js_scope.
Open Scope js_scope.

Definition emit {A} (ev : Event) (answer : World -> Trace -> Outcome A) : M A :=
  fun w tr => (answer w tr, (tr ++ [ev])%list).

Definition axiosPost (url : string) (body : value) (headers : object) : M HttpResponse :=
  emit (AxiosPost url body headers) (fun w tr => axios_post w tr url body headers).

Definition axiosGet (url : string) (params headers : object) : M HttpResponse :=
  emit (AxiosGet url params headers) (fun w tr => axios_get w tr url params headers).

Definition conversationsList : M object :=
  emit ConversationsList conversations_list.

Definition usersList : M object :=
  emit UsersList users_list.

Definition chatPostMessage (channel : value) (text : string) (thread_ts : value)
    (as_user : bool) : M object :=
  emit (ChatPostMessage channel text thread_ts as_user)
       (fun w tr => chat_postMessage w tr channel text thread_ts as_user).

Definition consoleError (message : string) (error : option exn) : M unit :=
  fun _ tr => (Ok tt, (tr ++ [ConsoleError message error])%list).

(** [arr.find(p)] and [arr.map(f)] with a callback that may throw. *)
Fixpoint find (p : value -> Outcome bool) (l : list value) : Outcome value :=
  match l with
  | [] => Ok VUndefined
  | x :: l' =>
      b <-! p x ;;
      if b then Ok x else find p l'
  end.

Fixpoint mapM (f : value -> Outcome value) (l : list value) : Outcome (list value) :=
  match l with
  | [] => Ok []
  | x :: l' =>
      y <-! f x ;;
      ys <-! mapM f l' ;;
      Ok (y :: ys)
  end.

Definition is_chat_post (ev : Event) : bool :=
  match ev with
  | ChatPostMessage _ _ _ _ => true
  | _ => false
  end.

Definition is_axios_post (ev : Event) : bool :=
  match ev with
  | AxiosPost _ _ _ => true
  | _ => false
  end.

(* ================================================================= *)
(** ** Configuration and the result envelope *)

Record Config : Type := mkConfig {
  API_KEY : string;
  ORG_NAME : string;
  BASE_URL : string;
  SLACK_DEFAULT_CHANNEL : string
}.

(** [{ content: [{ type: "text", text }], isError }]; a result without
    [isError] has [isError = false]. *)
Record CallToolResult : Type := mkResult {
  text : option string;
  isError : bool
}.

Definition error_result (msg : string) : CallToolResult :=
  {| text := Some msg; isError := true |}.

Definition ok_result (body : option string) : CallToolResult :=
  {| text := body; isError := false |}.

Record Request : Type := mkRequest {
  name : string;
  arguments : option object
}.

(* ================================================================= *)
(** ** The server *)

(** [/^devin-/] *)
Definition re_devin_prefix : Regex.regex :=
  Regex.Bol :: Regex.lit "devin-".

(** [/^[C][A-Z0-9]{8,}$/] *)
Definition re_channel_id : Regex.regex :=
  [Regex.Bol;
   Regex.Cls [("C", "C")%char];
   Regex.ClsMin [("A", "Z")%char; ("0", "9")%char] 8;
   Regex.Eol].

Definition normalizeSessionId (sessionId : string) : string :=
  Regex.replace re_devin_prefix "" sessionId.

(** A call [normalizeSessionId(v)] where [v] comes from an untyped
    response: [v.replace] only exists on a string. *)
Definition call_normalizeSessionId (v : value) : Outcome string :=
  match v with
  | VStr s => Ok (normalizeSessionId s)
  | VUndefined =>
      Throw (Error "TypeError" "Cannot read properties of undefined (reading 'replace')")
  | VNull =>
      Throw (Error "TypeError" "Cannot read properties of null (reading 'replace')")
  | _ => Throw (Error "TypeError" "sessionId.replace is not a function")
  end.

Section Server.

(** StringToNumber of the runtime, used by [Number(v)]. *)
Variable StringToNumber : string -> number.

Variable cfg : Config.

(** [Number(v)]. *)
Definition ToNumber (v : value) : number :=
  match v with
  | VUndefined => NaN
  | VNull => Int 0
  | VBool true => Int 1
  | VBool false => Int 0
  | VNum n => n
  | VStr s => StringToNumber s
  | VArr _ | VObj _ => StringToNumber (Js.ToString v)
  end.

(** [Number(v) || undefined]. *)
Definition number_or_undefined (v : value) : option number :=
  let n := ToNumber v in
  if Js.number_truthy n then Some n else None.

Definition getHeaders : object :=
  [("Authorization", VStr ("Bearer " ++ API_KEY cfg));
   ("Content-Type", VStr "application/json")].

(** [request.params.arguments?.k]. *)
Definition arg (args : option object) (k : string) : value :=
  match args with
  | Some o => Js.get o k
  | None => VUndefined
  end.

Definition getChannelId (channelNameOrId : value) : M value :=
  if Regex.test re_channel_id (Js.ToString channelNameOrId) then
    ret channelNameOrId
  else
    try_catch
      (result <- conversationsList ;;
       let channels := Js.get result "channels" in
       found <-
         match channels with
         | VArr chs =>
             normalizedName <-
               lift (match channelNameOrId with
                     | VStr s =>
                         Ok (if Str.startsWith "#" s then Str.tail s else s)
                     | _ =>
                         Throw (Error "TypeError"
                                  "channelNameOrId.startsWith is not a function")
                     end) ;;
             channel <-
               lift (find (fun ch =>
                             n <-! Js.member ch "name" ;;
                             Ok (Js.is_string normalizedName n)) chs) ;;
             if Js.truthy channel then
               id <- lift (Js.member channel "id") ;;
               ret (if Js.truthy id then Some id else None)
             else ret None
         | _ => ret None
         end ;;
       match found with
       | Some id => ret id
       | None =>
           throw (Error "Error" ("Channel not found: " ++ Js.ToString channelNameOrId))
       end)
      (fun error =>
         consoleError ("Error resolving channel name to ID: " ++ Js.error_to_string error)
                      None ;;;
         throw error).

Definition sendSlackMessage (channel : value) (text : string) (threadTs : value)
  : M object :=
  try_catch
    (channelId <- getChannelId channel ;;
     chatPostMessage channelId text threadTs true)
    (fun error =>
       consoleError "Error sending message to Slack:" (Some error) ;;;
       throw error).

(** The two [catch] branches every tool case ends with. *)
Definition catch_result (what : string) (error : exn) : CallToolResult :=
  match error with
  | AxiosError _ response =>
      error_result
        (what ++ ": "
           ++ match response with
              | Some r => Js.number_to_string (Int (status r))
              | None => "undefined"
              end
           ++ " - "
           ++ JSON.show (match response with
                         | Some r => JSON.stringify (data r)
                         | None => None
                         end))
  | Error _ _ =>
      error_result ("Unexpected error: " ++ Js.error_to_string error)
  end.

Definition is_devin_user (user : value) : Outcome bool :=
  n <-! Js.member user "name" ;;
  rn <-! Js.member user "real_name" ;;
  profile <-! Js.member user "profile" ;;
  Ok (Js.is_string "devin" n
      || Js.is_string "Devin" rn
      || Js.is_string "Devin" (Js.opt_member profile "display_name")).

Definition find_devin_user : M value :=
  try_catch
    (result <- usersList ;;
     match Js.get result "members" with
     | VArr members =>
         devinUser <- lift (find is_devin_user members) ;;
         if Js.truthy devinUser then
           id <- lift (Js.member devinUser "id") ;;
           ret (if Js.truthy id then id else VStr "")
         else ret (VStr "")
     | _ => ret (VStr "")
     end)
    (fun userError =>
       consoleError "Error finding Devin user:" (Some userError) ;;;
       ret (VStr "")).

Definition create_request_body (prompt : string) (idempotent : bool)
    (machine_snapshot_id : value) (max_acu : option number) : object :=
  let requestBody := [("prompt", VStr prompt); ("idempotent", VBool idempotent)] in
  let requestBody :=
    if Js.truthy machine_snapshot_id
    then Js.set "machine_snapshot_id" machine_snapshot_id requestBody
    else requestBody in
  match max_acu with
  | Some n => Js.set "max_acu" (VNum n) requestBody
  | None => requestBody
  end.

(** The text posted to Slack: a mention of the Devin user, by id when the
    lookup found one, followed by the prompt. *)
Definition slackMessage (devinUserId : value) (prompt : string) : string :=
  if Js.truthy devinUserId
  then "<@" ++ Js.ToString devinUserId ++ "> " ++ prompt
  else "@Devin " ++ prompt.

(** The [return] of the create case: reading [response.data.session_id]
    throws when the response has no data, and so does normalizing an id
    that is not a string. *)
Definition create_success (response : HttpResponse) (slackResponse : object)
    (slack_channel : value) : Outcome CallToolResult :=
  session_id <-! Js.member (data response) "session_id" ;;
  normalized <-! call_normalizeSessionId session_id ;;
  url <-! Js.member (data response) "url" ;;
  is_new_session <-! Js.member (data response) "is_new_session" ;;
  Ok (ok_result
        (JSON.stringify2
           (VObj [("session_id", VStr normalized);
                  ("original_session_id", session_id);
                  ("url", url);
                  ("organization", VStr (ORG_NAME cfg));
                  ("is_new_session", is_new_session);
                  ("slack_message_ts", Js.get slackResponse "ts");
                  ("slack_channel", slack_channel)]))).

Definition create_devin_session (args : option object) : M CallToolResult :=
  let prompt := Js.ToString (arg args "prompt") in
  let machine_snapshot_id := arg args "machine_snapshot_id" in
  let max_acu := number_or_undefined (arg args "max_acu") in
  let idempotent := Js.truthy (arg args "idempotent") in
  let slack_channel :=
    Js.or (arg args "slack_channel") (VStr (SLACK_DEFAULT_CHANNEL cfg)) in
  if Str.is_empty prompt then ret (error_result "Error: prompt is required")
  else
    try_catch
      (response <-
         axiosPost (BASE_URL cfg ++ "/session")
                   (VObj (create_request_body prompt idempotent machine_snapshot_id max_acu))
                   getHeaders ;;
       devinUserId <- find_devin_user ;;
       slackResponse <-
         sendSlackMessage slack_channel (slackMessage devinUserId prompt) VUndefined ;;
       lift (create_success response slackResponse slack_channel))
      (fun error => ret (catch_result "Error creating session" error)).

(** [{ ...v, original_session_id: v.session_id,
       session_id: normalizeSessionId(v.session_id) }] *)
Definition with_session_ids (v : value) (session_id : value) : Outcome value :=
  normalized <-! call_normalizeSessionId session_id ;;
  Ok (VObj (Js.set "session_id" (VStr normalized)
              (Js.set "original_session_id" session_id (Js.spread v)))).

(** [if (v && v.session_id) { v = { ...v, ... } }], also the callback of
    [sessions.map] once its argument is known not to be nullish. *)
Definition attach_session_ids (v : value) : Outcome value :=
  if Js.truthy v then
    session_id <-! Js.member v "session_id" ;;
    if Js.truthy session_id then with_session_ids v session_id else Ok v
  else Ok v.

Definition fetch_messages (session_id : string) (data0 : value) : M value :=
  try_catch
    (sessionResponse <-
       axiosGet (BASE_URL cfg ++ "/session/" ++ normalizeSessionId session_id ++ "/message")
                [] getHeaders ;;
     messages <- lift (Js.member (data sessionResponse) "messages") ;;
     ret (VObj (Js.set "messages" messages (Js.spread data0))))
    (fun slackError =>
       consoleError "Error fetching Slack info:" (Some slackError) ;;;
       ret data0).

Definition get_devin_session (args : option object) : M CallToolResult :=
  let session_id := Js.ToString (arg args "session_id") in
  let fetch_slack_info := Js.truthy (arg args "fetch_slack_info") in
  if Str.is_empty session_id then ret (error_result "Error: session_id is required")
  else
    try_catch
      (response <-
         axiosGet (BASE_URL cfg ++ "/session/" ++ normalizeSessionId session_id)
                  [] getHeaders ;;
       data1 <-
         (if fetch_slack_info then fetch_messages session_id (data response)
          else ret (data response)) ;;
       data2 <- lift (attach_session_ids data1) ;;
       ret (ok_result (JSON.stringify2 data2)))
      (fun error => ret (catch_result "Error getting session" error)).

Definition send_success_payload (response_data : value)
    (slack_channel slack_thread_ts : value) (slackResponse : option object) : value :=
  VObj [("status", VStr "Message sent successfully");
        ("success", VBool true);
        ("response_data", Js.or response_data (VObj []));
        ("slack_response",
          match slackResponse with
          | Some r => VObj [("channel", slack_channel);
                            ("thread_ts", slack_thread_ts);
                            ("message_ts", Js.get r "ts")]
          | None => VNull
          end)].

Definition send_failure_payload (response : HttpResponse) : value :=
  VObj [("status", VStr "Message sending failed");
        ("success", VBool false);
        ("http_status", VNum (Int (status response)));
        ("response_data", Js.or (data response) (VObj []))].

Definition send_message_to_session (args : option object) : M CallToolResult :=
  let session_id := Js.ToString (arg args "session_id") in
  let message := Js.ToString (arg args "message") in
  let slack_channel := arg args "slack_channel" in
  let slack_thread_ts := arg args "slack_thread_ts" in
  if Str.is_empty session_id then ret (error_result "Error: session_id is required")
  else if Str.is_empty message then ret (error_result "Error: message is required")
  else
    try_catch
      (response <-
         axiosPost (BASE_URL cfg ++ "/session/" ++ normalizeSessionId session_id ++ "/message")
                   (VObj [("message", VStr message)])
                   getHeaders ;;
       let isSuccess := (200 <=? status response)%Z && (status response <? 300)%Z in
       slackResponse <-
         (if isSuccess && Js.truthy slack_channel && Js.truthy slack_thread_ts
          then r <- sendSlackMessage slack_channel message slack_thread_ts ;; ret (Some r)
          else ret None) ;;
       if isSuccess then
         ret (ok_result
                (JSON.stringify2
                   (send_success_payload (data response) slack_channel slack_thread_ts
                                         slackResponse)))
       else
         ret {| text := JSON.stringify2 (send_failure_payload response);
                isError := true |})
      (fun error => ret (catch_result "Error sending message" error)).

(** The callback of [sessions.map]. *)
Definition normalize_entry (session : value) : Outcome value :=
  session_id <-! Js.member session "session_id" ;;
  if Js.truthy session_id then with_session_ids session session_id else Ok session.

(** [normalizedData] of the list case, from [response.data]. *)
Definition normalize_sessions (response_data : value) : Outcome object :=
  let normalizedData := Js.spread response_data in
  match Js.get normalizedData "sessions" with
  | VArr sessions =>
      mapped <-! mapM normalize_entry sessions ;;
      Ok (Js.set "sessions" (VArr mapped) normalizedData)
  | _ => Ok normalizedData
  end.

Definition list_params (limit offset : option number) : object :=
  let params := [] in
  let params :=
    match limit with Some n => Js.set "limit" (VNum n) params | None => params end in
  match offset with Some n => Js.set "offset" (VNum n) params | None => params end.

Definition list_devin_sessions (args : option object) : M CallToolResult :=
  let limit := number_or_undefined (arg args "limit") in
  let offset := number_or_undefined (arg args "offset") in
  try_catch
    (response <-
       axiosGet (BASE_URL cfg ++ "/session") (list_params limit offset) getHeaders ;;
     normalizedData <- lift (normalize_sessions (data response)) ;;
     ret (ok_result (JSON.stringify2 (VObj normalizedData))))
    (fun error => ret (catch_result "Error listing sessions" error)).

Definition get_organization_info : M CallToolResult :=
  ret (ok_result
         (JSON.stringify2
            (VObj [("name", VStr (ORG_NAME cfg)); ("base_url", VStr (BASE_URL cfg))]))).

(** The [CallToolRequestSchema] handler: the [switch] on the tool name. *)
Definition call_tool (request : Request) : M CallToolResult :=
  let args := arguments request in
  if String.eqb (name request) "create_devin_session" then create_devin_session args
  else if String.eqb (name request) "get_devin_session" then get_devin_session args
  else if String.eqb (name request) "send_message_to_session" then
    send_message_to_session args
  else if String.eqb (name request) "list_devin_sessions" then list_devin_sessions args
  else if String.eqb (name request) "get_organization_info" then get_organization_info
  else ret (error_result ("Unknown tool: " ++ name request)).

End Server.

(* ================================================================= *)
(** ** The server without Slack

    The same five tools; no session-id normalization, no chat calls, and
    the collection endpoints are [/sessions]. *)

Module Plain.

Section Server.

Variable StringToNumber : string -> number.

Variable cfg : Config.

Definition create_success (response : HttpResponse) : Outcome CallToolResult :=
  session_id <-! Js.member (data response) "session_id" ;;
  url <-! Js.member (data response) "url" ;;
  is_new_session <-! Js.member (data response) "is_new_session" ;;
  Ok (ok_result
        (JSON.stringify2
           (VObj [("session_id", session_id);
                  ("url", url);
                  ("organization", VStr (ORG_NAME cfg));
                  ("is_new_session", is_new_session)]))).

Definition create_devin_session (args : option object) : M CallToolResult :=
  let prompt := Js.ToString (arg args "prompt") in
  let machine_snapshot_id := arg args "machine_snapshot_id" in
  let max_acu := number_or_undefined StringToNumber (arg args "max_acu") in
  let idempotent := Js.truthy (arg args "idempotent") in
  if Str.is_empty prompt then ret (error_result "Error: prompt is required")
  else
    try_catch
      (response <-
         axiosPost (BASE_URL cfg ++ "/sessions")
                   (VObj (create_request_body prompt idempotent machine_snapshot_id max_acu))
                   (getHeaders cfg) ;;
       lift (create_success response))
      (fun error => ret (catch_result "Error creating session" error)).

Definition get_devin_session (args : option object) : M CallToolResult :=
  let session_id := Js.ToString (arg args "session_id") in
  if Str.is_empty session_id then ret (error_result "Error: session_id is required")
  else
    try_catch
      (response <-
         axiosGet (BASE_URL cfg ++ "/session/" ++ session_id) [] (getHeaders cfg) ;;
       ret (ok_result (JSON.stringify2 (data response))))
      (fun error => ret (catch_result "Error getting session" error)).

Definition send_message_to_session (args : option object) : M CallToolResult :=
  let session_id := Js.ToString (arg args "session_id") in
  let message := Js.ToString (arg args "message") in
  if Str.is_empty session_id then ret (error_result "Error: session_id is required")
  else if Str.is_empty message then ret (error_result "Error: message is required")
  else
    try_catch
      (response <-
         axiosPost (BASE_URL cfg ++ "/session/" ++ session_id ++ "/message")
                   (VObj [("message", VStr message)])
                   (getHeaders cfg) ;;
       ret (ok_result
              (JSON.stringify2
                 (VObj [("success", VBool true);
                        ("session_id", VStr session_id);
                        ("message_sent", VStr message);
                        ("response", data response)]))))
      (fun error => ret (catch_result "Error sending message" error)).

Definition list_devin_sessions (args : option object) : M CallToolResult :=
  let limit := number_or_undefined StringToNumber (arg args "limit") in
  let offset := number_or_undefined StringToNumber (arg args "offset") in
  try_catch
    (response <-
       axiosGet (BASE_URL cfg ++ "/sessions") (list_params limit offset) (getHeaders cfg) ;;
     ret (ok_result (JSON.stringify2 (data response))))
    (fun error => ret (catch_result "Error listing sessions" error)).

Definition call_tool (request : Request) : M CallToolResult :=
  let args := arguments request in
  if String.eqb (name request) "create_devin_session" then create_devin_session args
  else if String.eqb (name request) "get_devin_session" then get_devin_session args
  else if String.eqb (name request) "send_message_to_session" then
    send_message_to_session args
  else if String.eqb (name request) "list_devin_sessions" then list_devin_sessions args
  else if String.eqb (name request) "get_organization_info" then get_organization_info cfg
  else ret (error_result ("Unknown tool: " ++ name request)).

End Server.

End Plain.

(** Running a request against a world, from an empty trace. *)
Definition run {A} (m : M A) (w : World) : Outcome A * Trace := m w [].

(* ================================================================= *)
(** ** The canonical channel identifier, as the specification words it *)

Module Spec.

(** An uppercase letter or a digit. *)
Definition upper_alnum (c : ascii) : bool :=
  let n := nat_of_ascii c in
  (Nat.leb 65 n && Nat.leb n 90) || (Nat.leb 48 n && Nat.leb n 57).

(** A [C] followed by at least eight uppercase-alphanumeric characters. *)
Definition canonical_channel_id (s : string) : bool :=
  match s with
  | EmptyString => false
  | String c t =>
      Ascii.eqb c "C" && Nat.leb 8 (String.length t) && Str.forallb upper_alnum t
  end.

(** Removing the literal prefix [devin-] once, when it is there. *)
Definition strip_devin (s : string) : string :=
  match s with
  | String "d" (String "e" (String "v" (String "i" (String "n" (String "-" rest))))) =>
      rest
  | _ => s
  end.

End Spec.

(* ================================================================= *)
(** ** Vocabulary for statements about traces *)

(** [m] only appends to the trace, and every event it appends satisfies [P]. *)
Definition emits {A} (P : Event -> Prop) (m : M A) : Prop :=
  forall (w : World) (tr : Trace),
    exists d : Trace, snd (m w tr) = (tr ++ d)%list /\ Forall P d.

(** The Slack lookups and the log lines: neither an axios call nor a post. *)
Definition is_lookup (ev : Event) : bool :=
  match ev with
  | ConversationsList | UsersList | ConsoleError _ _ => true
  | _ => false
  end.

(** [m] never throws. *)
Definition total {A} (m : M A) : Prop :=
  forall (w : World) (tr : Trace), exists a : A, fst (m w tr) = Ok a.

(* ================================================================= *)
(** ** A concrete deployment, for the examples *)

Module Sample.

(** A StringToNumber for the examples: it reads plain decimal integers and
    gives [NaN] on everything else.  The server and its theorems take the
    conversion as a parameter. *)
Definition StringToNumber (s : string) : number :=
  match NilZero.int_of_string s with
  | Some i => Int (Z.of_int i)
  | None => NaN
  end.

Definition cfg : Config :=
  {| API_KEY := "key";
     ORG_NAME := "Acme";
     BASE_URL := "https://api.devin.ai/v1";
     SLACK_DEFAULT_CHANNEL := "C123ABC456" |}.

Definition session : value :=
  VObj [("session_id", VStr "devin-abc");
        ("url", VStr "https://app.devin.ai/sessions/abc");
        ("is_new_session", VBool true)].

(** Both services answer every call. *)
Definition world : World :=
  {| axios_post := fun _ _ _ _ => Ok (mkResponse 200 session);
     axios_get := fun _ _ _ _ => Ok (mkResponse 200 session);
     conversations_list := fun _ =>
       Ok [("channels",
            VArr [VObj [("name", VStr "general"); ("id", VStr "C0000000001")]])];
     users_list := fun _ =>
       Ok [("members", VArr [VObj [("name", VStr "devin"); ("id", VStr "U42")]])];
     chat_postMessage := fun _ _ _ _ _ => Ok [("ok", VBool true); ("ts", VStr "171.001")] |}.

Definition call (request : Request) (w : World) : Outcome CallToolResult * Trace :=
  run (call_tool StringToNumber cfg request) w.

(** The message endpoint answers 404 with a JSON body. *)
Definition not_found : value := VObj [("detail", VStr "Session not found")].


(** The agent accepts the message with an empty body; Slack is down. *)
Definition slack_down : exn := Error "Error" "An API error occurred: invalid_auth".

Definition world_slack_down : World :=
  {| axios_post := fun _ _ _ _ => Ok (mkResponse 200 (VStr ""));
     axios_get := axios_get world;
     conversations_list := fun _ => Throw slack_down;
     users_list := fun _ => Throw slack_down;
     chat_postMessage := fun _ _ _ _ _ => Throw slack_down |}.

Definition send_request : Request :=
  {| name := "send_message_to_session";
     arguments := Some [("session_id", VStr "devin-abc"); ("message", VStr "hello")] |}.

Definition send_request_with_thread : Request :=
  {| name := "send_message_to_session";
     arguments := Some [("session_id", VStr "devin-abc"); ("message", VStr "hello");
                        ("slack_channel", VStr "general");
                        ("slack_thread_ts", VStr "171.001")] |}.



(** The agent answers a session query without a [session_id]. *)
Definition world_no_id : World :=
  {| axios_post := axios_post world;
     axios_get := fun _ _ _ _ => Ok (mkResponse 200 (VObj [("status", VStr "running")]));
     conversations_list := conversations_list world;
     users_list := users_list world;
     chat_postMessage := chat_postMessage world |}.

Definition get_request : Request :=
  {| name := "get_devin_session";
     arguments := Some [("session_id", VStr "devin-abc")] |}.

Definition get_request_with_history : Request :=
  {| name := "get_devin_session";
     arguments := Some [("session_id", VStr "devin-abc");
                        ("fetch_slack_info", VBool true)] |}.

(** A session list with a prefixed id and an entry whose id is empty. *)
Definition listing : value :=
  VObj [("sessions",
         VArr [VObj [("session_id", VStr "devin-1"); ("status", VStr "running")];
               VObj [("session_id", VStr ""); ("status", VStr "blocked")]])].

Definition world_listing : World :=
  {| axios_post := axios_post world;
     axios_get := fun _ _ _ _ => Ok (mkResponse 200 listing);
     conversations_list := conversations_list world;
     users_list := users_list world;
     chat_postMessage := chat_postMessage world |}.

Definition list_request : Request :=
  {| name := "list_devin_sessions"; arguments := None |}.


(** The session is created but Slack refuses the post. *)
Definition post_refused : exn := Error "Error" "An API error occurred: not_in_channel".

Definition world_post_refused : World :=
  {| axios_post := axios_post world;
     axios_get := axios_get world;
     conversations_list := conversations_list world;
     users_list := users_list world;
     chat_postMessage := fun _ _ _ _ _ => Throw post_refused |}.

Definition create_request : Request :=
  {| name := "create_devin_session";
     arguments := Some [("prompt", VStr "fix bug")] |}.

End Sample.

(** The error flag of an outcome, when the handler returned. *)
Definition isError_of (r : Outcome CallToolResult * Trace) : option bool :=
  match fst r with
  | Ok res => Some (isError res)
  | Throw _ => None
  end.

Definition text_of (r : Outcome CallToolResult * Trace) : option string :=
  match fst r with
  | Ok res => text res
  | Throw _ => None
  end.

(** The upstream honours the type of a session: its [session_id], when
    there is one, is a string. *)
Definition session_id_well_typed (d : value) : Prop :=
  match Js.opt_member d "session_id" with
  | VStr _ => True
  | v => Js.truthy v = false
  end.

(** [out] carries what [d] carries, apart from the two session-id fields. *)
Definition same_other_fields (d out : value) : Prop :=
  forall k : string,
    k <> "session_id" -> k <> "original_session_id" ->
    Js.opt_member out k = Js.opt_member d k.

(** How the list case returns an entry of [sessions]: an entry with a
    non-empty string [session_id] gets the normalized id and keeps the
    original under [original_session_id]; any other entry is returned as
    it came. *)
Definition entry_normalized (session out : value) : Prop :=
  match Js.opt_member session "session_id" with
  | VStr s =>
      if Str.is_empty s then out = session
      else
        Js.opt_member out "session_id" = VStr (normalizeSessionId s)
        /\ Js.opt_member out "original_session_id" = VStr s
        /\ same_other_fields session out
  | _ => out = session
  end.

(** Two worlds whose chat service behaves the same. *)
Definition same_slack (w w' : World) : Prop :=
  conversations_list w = conversations_list w'
  /\ users_list w = users_list w'
  /\ chat_postMessage w = chat_postMessage w'.

(** [m] only consults the chat service. *)
Definition slack_only {A} (m : M A) : Prop :=
  forall (w w' : World) (tr : Trace), same_slack w w' -> m w tr = m w' tr.


(* ================================================================= *)
(** ** Start-up: the configuration module and the checks before serving *)

Module Startup.

(** [process.env]. *)
Definition Env := string -> option string.

(** [process.env.X || fallback]: an unset or empty variable gives the
    fallback. *)
Definition or_default (v : option string) (fallback : string) : string :=
  match v with
  | Some s => if Str.is_empty s then fallback else s
  | None => fallback
  end.

(** The object the configuration module exports. *)
Record Settings : Type := mkSettings {
  devin_apiKey : option string;
  devin_orgName : string;
  devin_baseUrl : string;
  slack_token : option string;
  slack_defaultChannel : option string
}.

Definition config (env : Env) : Settings :=
  {| devin_apiKey := env "DEVIN_API_KEY";
     devin_orgName := or_default (env "DEVIN_ORG_NAME") "Default Organization";
     devin_baseUrl := or_default (env "DEVIN_BASE_URL") "https://api.devin.ai/v1";
     slack_token := env "SLACK_BOT_TOKEN";
     slack_defaultChannel := env "SLACK_DEFAULT_CHANNEL" |}.

(** [!v] for a variable that may be unset. *)
Definition missing (v : option string) : bool :=
  match v with
  | Some s => Str.is_empty s
  | None => true
  end.

Definition value_of (v : option string) : string :=
  match v with Some s => s | None => "" end.

(** The three checks at the top of the server: the line printed before
    [process.exit(1)], or the configuration the handlers run with. *)
Definition validate (c : Settings) : string + Config :=
  if missing (devin_apiKey c) then inl "Error: DEVIN_API_KEY is not set"
  else if missing (slack_token c) then inl "Error: SLACK_BOT_TOKEN is not set"
  else if missing (slack_defaultChannel c) then
    inl "Error: SLACK_DEFAULT_CHANNEL is not set"
  else
    inr {| API_KEY := value_of (devin_apiKey c);
           ORG_NAME := devin_orgName c;
           BASE_URL := devin_baseUrl c;
           SLACK_DEFAULT_CHANNEL := value_of (slack_defaultChannel c) |}.

Definition start (env : Env) : string + Config := validate (config env).

(** The name the server registers under. *)
Definition server_name (cfg : Config) : string := "devin-" ++ ORG_NAME cfg.

End Startup.

(* ================================================================= *)
(** ** The tool registry: the answer to [ListToolsRequestSchema] *)

Module Registry.

Record Tool : Type := mkTool {
  tool_name : string;
  properties : list (string * string);   (* argument name, JSON type *)
  required : list string
}.

Definition tools : list Tool :=
  [ {| tool_name := "create_devin_session";
       properties := [("prompt", "string"); ("machine_snapshot_id", "string");
                      ("max_acu", "number"); ("idempotent", "boolean");
                      ("slack_channel", "string")];
       required := ["prompt"] |};
    {| tool_name := "get_devin_session";
       properties := [("session_id", "string"); ("fetch_slack_info", "boolean")];
       required := ["session_id"] |};
    {| tool_name := "list_devin_sessions";
       properties := [("limit", "number"); ("offset", "number")];
       required := [] |};
    {| tool_name := "send_message_to_session";
       properties := [("session_id", "string"); ("message", "string");
                      ("slack_channel", "string"); ("slack_thread_ts", "string")];
       required := ["session_id"; "message"] |};
    {| tool_name := "get_organization_info";
       properties := [];
       required := [] |} ].

Definition names : list string := map tool_name tools.

End Registry.

(* ================================================================= *)
(** ** Counting calls *)

(** An axios call, GET or POST. *)
Definition is_axios (ev : Event) : bool :=
  match ev with
  | AxiosPost _ _ _ | AxiosGet _ _ _ => true
  | _ => false
  end.

(** A call to the chat service. *)
Definition is_slack (ev : Event) : bool :=
  match ev with
  | ConversationsList | UsersList | ChatPostMessage _ _ _ _ => true
  | _ => false
  end.

Definition count (p : Event -> bool) (tr : Trace) : nat := List.length (filter p tr).

(** [m] only appends to the trace, at most [n] events that satisfy [p]. *)
Definition at_most {A} (p : Event -> bool) (n : nat) (m : M A) : Prop :=
  forall (w : World) (tr : Trace),
    exists d : Trace, snd (m w tr) = (tr ++ d)%list /\ count p d <= n.

(** The channel name [getChannelId] looks for. *)
Definition channel_name (s : string) : string :=
  if Str.startsWith "#" s then Str.tail s else s.

(* ================================================================= *)
(** ** More deployments, for the examples *)

Module Scenario.

(** A workspace with two channels of the same name, the first without id,
    and a member list in which Devin is found by display name. *)
Definition workspace : World :=
  {| axios_post := axios_post Sample.world;
     axios_get := fun tr _ _ _ =>
       match tr with
       | [] => Ok (mkResponse 200 Sample.session)
       | _ => Ok (mkResponse 200
                    (VObj [("messages", VArr [VObj [("message", VStr "hi")]])]))
       end;
     conversations_list := fun _ =>
       Ok [("ok", VBool true);
           ("channels",
            VArr [VObj [("name", VStr "random"); ("id", VStr "C0000000002")];
                  VObj [("name", VStr "general"); ("id", VStr "C0000000001")]])];
     users_list := fun _ =>
       Ok [("members",
            VArr [VObj [("name", VStr "alice"); ("id", VStr "U1")];
                  VObj [("name", VStr "bot");
                        ("profile", VObj [("display_name", VStr "Devin")]);
                        ("id", VStr "U7")]])];
     chat_postMessage := chat_postMessage Sample.world |}.

(** The member list cannot be read. *)
Definition users_down : World :=
  {| axios_post := axios_post Sample.world;
     axios_get := axios_get Sample.world;
     conversations_list := conversations_list Sample.world;
     users_list := fun _ => Throw (Error "Error" "An API error occurred: missing_scope");
     chat_postMessage := chat_postMessage Sample.world |}.


(** The message endpoint answers 302: axios rejects it with the response. *)
Definition redirected : exn :=
  AxiosError "Request failed with status code 302" (Some (mkResponse 302 (VStr ""))).

Definition world_redirect : World :=
  {| axios_post := fun _ _ _ _ => Throw redirected;
     axios_get := axios_get Sample.world;
     conversations_list := conversations_list Sample.world;
     users_list := users_list Sample.world;
     chat_postMessage := chat_postMessage Sample.world |}.

(** The agent is unreachable: no response at all. *)
Definition network_error : exn := AxiosError "Network Error" None.

Definition world_agent_down : World :=
  {| axios_post := fun _ _ _ _ => Throw network_error;
     axios_get := fun _ _ _ _ => Throw network_error;
     conversations_list := conversations_list Sample.world;
     users_list := users_list Sample.world;
     chat_postMessage := chat_postMessage Sample.world |}.

(** The list endpoint answers with a bare array. *)
Definition bare_sessions : list value :=
  [VObj [("session_id", VStr "devin-1")]; VObj [("session_id", VStr "devin-2")]].

Definition world_bare_array : World :=
  {| axios_post := axios_post Sample.world;
     axios_get := fun _ _ _ _ => Ok (mkResponse 200 (VArr bare_sessions));
     conversations_list := conversations_list Sample.world;
     users_list := users_list Sample.world;
     chat_postMessage := chat_postMessage Sample.world |}.

(** The list has a [null] among its sessions. *)
Definition world_null_entry : World :=
  {| axios_post := axios_post Sample.world;
     axios_get := fun _ _ _ _ =>
       Ok (mkResponse 200
             (VObj [("sessions", VArr [VObj [("session_id", VStr "devin-1")]; VNull])]));
     conversations_list := conversations_list Sample.world;
     users_list := users_list Sample.world;
     chat_postMessage := chat_postMessage Sample.world |}.

Definition create_in (channel : string) : option object :=
  Some [("prompt", VStr "fix bug"); ("slack_channel", VStr channel)].

Definition paged : option object :=
  Some [("limit", VNum (Int 10)); ("offset", VNum (Int 0))].

Definition env : Startup.Env :=
  fun k =>
    if String.eqb k "DEVIN_API_KEY" then Some "key"
    else if String.eqb k "DEVIN_ORG_NAME" then Some ""
    else if String.eqb k "SLACK_BOT_TOKEN" then Some "xoxb-1"
    else if String.eqb k "SLACK_DEFAULT_CHANNEL" then Some "general"
    else None.

End Scenario.

(* ================================================================= *)
(** ** The conversions at the head of a tool case

    Every tool case begins, before its [try], with [String(...)] and
    [Number(...)] of the arguments it needs.  Both throw a TypeError on an
    object that has a [toString] property of its own (in a request it cannot
    be a function), and on an array that holds such an object: the inherited
    conversion is shadowed and [valueOf] gives no primitive.  [call_tool] is
    the [switch] once these conversions have returned; [handle] is the
    handler with them. *)

Module Convert.

(** [String(v)] and [Number(v)] return. *)
Fixpoint convertible (v : value) : bool :=
  match v with
  | VObj o =>
      match Js.lookup "toString" o with
      | Some _ => false
      | None => true
      end
  | VArr l =>
      forallb (fun e => match e with
                        | VUndefined | VNull => true
                        | _ => convertible e
                        end) l
  | _ => true
  end.

Definition not_primitive : exn :=
  Error "TypeError" "Cannot convert object to primitive value".

(** [String(v)]. *)
Definition to_string (v : value) : Outcome string :=
  if convertible v then Ok (Js.ToString v) else Throw not_primitive.

(** [Number(v)]. *)
Definition to_number (StringToNumber : string -> number) (v : value) : Outcome number :=
  if convertible v then Ok (ToNumber StringToNumber v) else Throw not_primitive.

(** The arguments a tool case converts, in the order of the source. *)
Definition converted (tool : string) : list string :=
  if String.eqb tool "create_devin_session" then ["prompt"; "max_acu"]
  else if String.eqb tool "get_devin_session" then ["session_id"]
  else if String.eqb tool "send_message_to_session" then ["session_id"; "message"]
  else if String.eqb tool "list_devin_sessions" then ["limit"; "offset"]
  else [].

(** Every conversion of the case returns. *)
Definition converts (request : Request) : bool :=
  forallb (fun k => convertible (arg (arguments request) k)) (converted (name request)).

(** The head of the case: the conversions, one after the other. *)
Definition head (StringToNumber : string -> number) (request : Request) : Outcome unit :=
  let args := arguments request in
  if String.eqb (name request) "create_devin_session" then
    _ <-! to_string (arg args "prompt") ;;
    _ <-! to_number StringToNumber (arg args "max_acu") ;;
    Ok tt
  else if String.eqb (name request) "get_devin_session" then
    _ <-! to_string (arg args "session_id") ;;
    Ok tt
  else if String.eqb (name request) "send_message_to_session" then
    _ <-! to_string (arg args "session_id") ;;
    _ <-! to_string (arg args "message") ;;
    Ok tt
  else if String.eqb (name request) "list_devin_sessions" then
    _ <-! to_number StringToNumber (arg args "limit") ;;
    _ <-! to_number StringToNumber (arg args "offset") ;;
    Ok tt
  else Ok tt.

End Convert.

(** The handler of the Slack-integrated server, conversions included. *)
Definition handle (StringToNumber : string -> number) (cfg : Config)
    (request : Request) : M CallToolResult :=
  _ <- lift (Convert.head StringToNumber request) ;;
  call_tool StringToNumber cfg request.

(** The handler of the server without Slack, conversions included. *)
Definition plain_handle (StringToNumber : string -> number) (cfg : Config)
    (request : Request) : M CallToolResult :=
  _ <- lift (Convert.head StringToNumber request) ;;
  Plain.call_tool StringToNumber cfg request.

(* ================================================================= *)
(** ** Upstream answers that strain the result text *)

Module Cases.

(** [s] between double quotes. *)
Definition q (s : string) : string := JSON.dq ++ s ++ JSON.dq.





(** The agent answers the session query without an id and the history
    call with messages. *)
Definition world_no_id_with_history : World :=
  {| axios_post := axios_post Sample.world;
     axios_get := fun tr _ _ _ =>
       match tr with
       | [] => Ok (mkResponse 200 (VObj [("status", VStr "running")]))
       | _ => Ok (mkResponse 200 (VObj [("messages", VArr [VStr "hi"])]))
       end;
     conversations_list := conversations_list Sample.world;
     users_list := users_list Sample.world;
     chat_postMessage := chat_postMessage Sample.world |}.

(** A request whose [limit] cannot be converted. *)
Definition shadowed : value := VObj [("toString", VNum (Int 1))].

Definition list_shadowed : Request :=
  {| name := "list_devin_sessions"; arguments := Some [("limit", shadowed)] |}.

Definition create_shadowed : Request :=
  {| name := "create_devin_session";
     arguments := Some [("prompt", VStr ""); ("max_acu", shadowed)] |}.

End Cases.

(* ================================================================= *)
(** * Properties *)

(** ** The model on small inputs *)

Example normalize_prefixed : normalizeSessionId "devin-abc123" = "abc123".
Proof. reflexivity. Qed.

Example normalize_twice_prefixed : normalizeSessionId "devin-devin-x" = "devin-x".
Proof. reflexivity. Qed.

Example normalize_inner_prefix : normalizeSessionId "my-devin-x" = "my-devin-x".
Proof. reflexivity. Qed.

Example channel_id_accepted : Regex.test re_channel_id "C123ABC456" = true.
Proof. reflexivity. Qed.

Example channel_id_too_short : Regex.test re_channel_id "C1234567" = false.
Proof. reflexivity. Qed.

Example channel_name_rejected : Regex.test re_channel_id "#general" = false.
Proof. reflexivity. Qed.

Example channel_id_lowercase_rejected : Regex.test re_channel_id "C12345678a" = false.
Proof. reflexivity. Qed.

Example string_of_undefined : Js.ToString VUndefined = "undefined".
Proof. reflexivity. Qed.

Example string_of_array :
  Js.ToString (VArr [VNum (Int 1); VNull; VArr [VStr "a"; VStr "b"]]) = "1,,a,b".
Proof. reflexivity. Qed.

Example stringify_array :
  JSON.stringify (VArr [VNum (Int (-12)); VUndefined; VNull; VBool true])
  = Some "[-12,null,null,true]".
Proof. reflexivity. Qed.

Example stringify_skips_undefined :
  JSON.stringify (VObj [("a", VUndefined)]) = Some "{}".
Proof. reflexivity. Qed.

Example empty_prompt_rejected :
  Sample.call (mkRequest "create_devin_session" (Some [("prompt", VStr "")])) Sample.world
  = (Ok (error_result "Error: prompt is required"), []).
Proof. reflexivity. Qed.

Example unknown_tool :
  Sample.call (mkRequest "delete_everything" None) Sample.world
  = (Ok (error_result "Unknown tool: delete_everything"), []).
Proof. reflexivity. Qed.

Example channel_by_name :
  getChannelId (VStr "#general") Sample.world []
  = (Ok (VStr "C0000000001"), [ConversationsList]).
Proof. reflexivity. Qed.

(** ** Strings *)

Lemma startsWith_app (p rest : string) : Str.startsWith p (p ++ rest) = true.
Proof.
  induction p as [|a p IH]; simpl; [reflexivity|].
  now rewrite Ascii.eqb_refl.
Qed.

Lemma startsWith_split (p s : string) :
  Str.startsWith p s = true -> exists rest, s = p ++ rest.
Proof.
  revert s; induction p as [|a p IH]; intros s H; simpl in *.
  - now exists s.
  - destruct s as [|b s]; [discriminate|].
    destruct (Ascii.eqb_spec a b) as [->|]; [|discriminate].
    destruct (IH _ H) as [rest ->]. now exists rest.
Qed.

Lemma includes_app (sub pre post : string) :
  Str.includes sub (pre ++ sub ++ post) = true.
Proof.
  induction pre as [|c pre IH]; simpl.
  - destruct (sub ++ post) eqn:E; simpl; rewrite <- E, startsWith_app; reflexivity.
  - rewrite IH. now destruct (Str.startsWith sub (String c (pre ++ sub ++ post))).
Qed.

Lemma includes_prefix (sub post : string) : Str.includes sub (sub ++ post) = true.
Proof. exact (includes_app sub "" post). Qed.

Lemma append_assoc (a b c : string) : (a ++ b) ++ c = a ++ b ++ c.
Proof. induction a; simpl; congruence. Qed.

Lemma append_nil_r (a : string) : a ++ "" = a.
Proof. induction a; simpl; congruence. Qed.

(** ** The regular-expression matcher *)

Lemma match_lit_app (p rest : string) (b : bool) :
  Regex.match_here (Regex.lit p) b (p ++ rest) = Some rest.
Proof.
  revert b; induction p as [|a p IH]; intros b; simpl; [reflexivity|].
  rewrite Ascii.eqb_refl. apply IH.
Qed.

Lemma match_lit_none (p s : string) (b : bool) :
  Str.startsWith p s = false -> Regex.match_here (Regex.lit p) b s = None.
Proof.
  revert s b; induction p as [|a p IH]; intros s b H; simpl in *; [discriminate|].
  destruct s as [|d s]; [reflexivity|].
  destruct (Ascii.eqb a d); [now apply IH | reflexivity].
Qed.

(** A pattern that starts with [^] cannot match after the first position. *)
Lemma search_bol_later (re : Regex.regex) (s : string) :
  Regex.search (Regex.Bol :: re) false s = None.
Proof.
  induction s as [|c s IH]; simpl; [reflexivity|].
  change (Regex.search (Regex.Bol :: re) false s) with
    (Regex.search (Regex.Bol :: re) false s) in IH.
  now rewrite IH.
Qed.

Lemma search_bol (re : Regex.regex) (s : string) :
  Regex.search (Regex.Bol :: re) true s =
  match Regex.match_here re true s with
  | Some rest => Some ("", rest)
  | None => None
  end.
Proof.
  destruct s as [|c s]; simpl.
  - now destruct (Regex.match_here re true "").
  - destruct (Regex.match_here re true (String c s)); [reflexivity|].
    now rewrite search_bol_later.
Qed.

(** The unfolding of the quantified class. *)
Lemma match_clsmin (rs : list Regex.range) (n : nat) (re : Regex.regex)
    (b : bool) (s : string) :
  Regex.match_here (Regex.ClsMin rs n :: re) b s =
  let stop := match n with O => Regex.match_here re b s | S _ => None end in
  match s with
  | String d t =>
      if Regex.in_class rs d then
        match Regex.match_here (Regex.ClsMin rs (pred n) :: re) false t with
        | Some r => Some r
        | None => stop
        end
      else stop
  | EmptyString => stop
  end.
Proof. destruct s; reflexivity. Qed.

Lemma match_clsmin_eol (rs : list Regex.range) (s : string) (n : nat) (b : bool) :
  Regex.match_here [Regex.ClsMin rs n; Regex.Eol] b s =
  if Nat.leb n (String.length s) && Str.forallb (Regex.in_class rs) s
  then Some "" else None.
Proof.
  revert n b; induction s as [|d t IH]; intros n b; rewrite match_clsmin.
  - destruct n; reflexivity.
  - rewrite IH. cbn [String.length Str.forallb].
    destruct (Regex.in_class rs d) eqn:Hd; cbn [andb].
    + destruct n as [|n]; cbn [pred Nat.leb].
      * now destruct (Str.forallb (Regex.in_class rs) t).
      * now destruct (Nat.leb n (String.length t) && Str.forallb (Regex.in_class rs) t).
    + rewrite Bool.andb_false_r. now destruct n.
Qed.

Lemma in_class_C (d : ascii) : Regex.in_class [("C", "C")%char] d = Ascii.eqb d "C".
Proof. destruct d as [[] [] [] [] [] [] [] []]; reflexivity. Qed.

Lemma in_class_upper_alnum (d : ascii) :
  Regex.in_class [("A", "Z")%char; ("0", "9")%char] d = Spec.upper_alnum d.
Proof.
  unfold Regex.in_class, Regex.in_range, Spec.upper_alnum; cbn [existsb fst snd].
  now rewrite Bool.orb_false_r.
Qed.

Lemma forallb_ext (p q : ascii -> bool) (s : string) :
  (forall c, p c = q c) -> Str.forallb p s = Str.forallb q s.
Proof. intros H; induction s; simpl; [reflexivity|]. now rewrite H, IHs. Qed.

(** The pattern of [getChannelId] accepts exactly the canonical identifiers. *)
Lemma test_channel_id (s : string) :
  Regex.test re_channel_id s = Spec.canonical_channel_id s.
Proof.
  unfold Regex.test, re_channel_id. rewrite search_bol.
  destruct s as [|d t]; [reflexivity|].
  change (Regex.match_here
            [Regex.Cls [("C", "C")%char];
             Regex.ClsMin [("A", "Z")%char; ("0", "9")%char] 8; Regex.Eol]
            true (String d t))
    with (if Regex.in_class [("C", "C")%char] d
          then Regex.match_here
                 [Regex.ClsMin [("A", "Z")%char; ("0", "9")%char] 8; Regex.Eol] false t
          else None).
  rewrite in_class_C.
  unfold Spec.canonical_channel_id.
  destruct (Ascii.eqb d "C"); cbn [andb]; [|reflexivity].
  rewrite match_clsmin_eol.
  rewrite (forallb_ext _ _ t in_class_upper_alnum).
  now destruct (Nat.leb 8 (String.length t) && Str.forallb Spec.upper_alnum t).
Qed.

Lemma normalizeSessionId_strip (rest : string) :
  normalizeSessionId ("devin-" ++ rest) = rest.
Proof.
  unfold normalizeSessionId, Regex.replace, re_devin_prefix.
  rewrite search_bol, match_lit_app. reflexivity.
Qed.

Lemma normalizeSessionId_id (s : string) :
  Str.startsWith "devin-" s = false -> normalizeSessionId s = s.
Proof.
  intros H. unfold normalizeSessionId, Regex.replace, re_devin_prefix.
  now rewrite search_bol, (match_lit_none _ _ _ H).
Qed.

Ltac other_char c :=
  destruct c as [[] [] [] [] [] [] [] []]; (reflexivity || congruence).

Ltac step_char x c :=
  destruct (Ascii.eqb_spec x c) as [<-|]; [|other_char c].

Lemma strip_devin_other (s : string) :
  Str.startsWith "devin-" s = false -> Spec.strip_devin s = s.
Proof.
  intros H.
  destruct s as [|c0 [|c1 [|c2 [|c3 [|c4 [|c5 s]]]]]].
  - reflexivity.
  - other_char c0.
  - step_char "d"%char c0. other_char c1.
  - step_char "d"%char c0. step_char "e"%char c1. other_char c2.
  - step_char "d"%char c0. step_char "e"%char c1. step_char "v"%char c2.
    other_char c3.
  - step_char "d"%char c0. step_char "e"%char c1. step_char "v"%char c2.
    step_char "i"%char c3. other_char c4.
  - cbn [Str.startsWith] in H.
    step_char "d"%char c0. step_char "e"%char c1. step_char "v"%char c2.
    step_char "i"%char c3. step_char "n"%char c4. step_char "-"%char c5.
    discriminate.
Qed.

(** C2.  [normalizeSessionId] is a total function on strings.  On an input
    that begins with [devin-] it returns the input without that prefix,
    removing one occurrence only (a second [devin-] that follows stays); on
    any other input it returns the input unchanged. *)
Theorem normalizeSessionId_spec :
  (forall rest : string, normalizeSessionId ("devin-" ++ rest) = rest)
  /\ (forall rest : string,
         normalizeSessionId ("devin-" ++ "devin-" ++ rest) = "devin-" ++ rest)
  /\ (forall s : string,
         Str.startsWith "devin-" s = false -> normalizeSessionId s = s)
  /\ (forall s : string, normalizeSessionId s = Spec.strip_devin s).
Proof.
  split; [exact normalizeSessionId_strip|].
  split; [intros rest; exact (normalizeSessionId_strip ("devin-" ++ rest))|].
  split; [exact normalizeSessionId_id|].
  intros s. destruct (Str.startsWith "devin-" s) eqn:H.
  - destruct (startsWith_split _ _ H) as [rest ->].
    now rewrite normalizeSessionId_strip.
  - now rewrite (normalizeSessionId_id _ H), (strip_devin_other _ H).
Qed.

Lemma normalizeSessionId_spec_witness :
  Str.startsWith "devin-" "session-1" = false
  /\ normalizeSessionId "session-1" = "session-1".
Proof.
  split; [reflexivity|].
  apply (proj1 (proj2 (proj2 normalizeSessionId_spec)) "session-1"). reflexivity.
Defined.

(** ** The trace only grows *)

Lemma emits_ret {A} (P : Event -> Prop) (a : A) : emits P (ret a).
Proof. intros w tr; exists []; cbn. now rewrite app_nil_r. Qed.

Lemma emits_throw {A} (P : Event -> Prop) (e : exn) : emits P (@throw A e).
Proof. intros w tr; exists []; cbn. now rewrite app_nil_r. Qed.

Lemma emits_lift {A} (P : Event -> Prop) (o : Outcome A) : emits P (lift o).
Proof. intros w tr; exists []; cbn. now rewrite app_nil_r. Qed.

Lemma emits_emit {A} (P : Event -> Prop) (ev : Event)
    (answer : World -> Trace -> Outcome A) :
  P ev -> emits P (emit ev answer).
Proof. intros H w tr; exists [ev]; cbn. auto. Qed.

Lemma emits_console (P : Event -> Prop) (msg : string) (e : option exn) :
  P (ConsoleError msg e) -> emits P (consoleError msg e).
Proof. intros H w tr; exists [ConsoleError msg e]; cbn. auto. Qed.

Lemma emits_bind {A B} (P : Event -> Prop) (m : M A) (k : A -> M B) :
  emits P m -> (forall a, emits P (k a)) -> emits P (bind m k).
Proof.
  intros Hm Hk w tr. unfold bind.
  destruct (Hm w tr) as (d & E & F).
  destruct (m w tr) as [[a|e] tr1]; cbn in E; subst tr1.
  - destruct (Hk a w (tr ++ d)%list) as (d' & E' & F').
    exists (d ++ d')%list. rewrite E', app_assoc.
    split; [reflexivity | apply Forall_app; auto].
  - exists d; auto.
Qed.

Lemma emits_try_catch {A} (P : Event -> Prop) (m : M A) (h : exn -> M A) :
  emits P m -> (forall e, emits P (h e)) -> emits P (try_catch m h).
Proof.
  intros Hm Hh w tr. unfold try_catch.
  destruct (Hm w tr) as (d & E & F).
  destruct (m w tr) as [[a|e] tr1]; cbn in E; subst tr1.
  - exists d; auto.
  - destruct (Hh e w (tr ++ d)%list) as (d' & E' & F').
    exists (d ++ d')%list. rewrite E', app_assoc.
    split; [reflexivity | apply Forall_app; auto].
Qed.

Lemma emits_weaken {A} (P Q : Event -> Prop) (m : M A) :
  (forall ev, P ev -> Q ev) -> emits P m -> emits Q m.
Proof.
  intros H Hm w tr. destruct (Hm w tr) as (d & E & F).
  exists d; split; [assumption|]. revert F; apply Forall_impl; assumption.
Qed.

Ltac trace_step :=
  first [ apply emits_ret | apply emits_throw | apply emits_lift
        | apply emits_bind; [|intro]
        | apply emits_try_catch; [|intro]
        | apply emits_emit; first [reflexivity | exact I | now left | now right]
        | apply emits_console; first [reflexivity | exact I | now left | now right]
        | match goal with
          | |- emits _ (if ?b then _ else _) => destruct b
          | |- emits _ (match ?x with _ => _ end) => destruct x
          end ].

Lemma getChannelId_emits (v : value) :
  emits (fun ev => is_lookup ev = true) (getChannelId v).
Proof.
  unfold getChannelId.
  destruct (Regex.test re_channel_id (Js.ToString v)); [apply emits_ret|].
  unfold conversationsList.
  repeat trace_step.
Qed.

Lemma lookups_no_post (d : Trace) :
  Forall (fun ev => is_lookup ev = true) d ->
  filter is_chat_post d = [] /\ filter is_axios_post d = [].
Proof.
  induction 1 as [|ev d H _ [IH1 IH2]]; [now split|].
  destruct ev; cbn in *; try discriminate; now split.
Qed.

(** ** getChannelId *)

(** C3.  On an input that matches the canonical channel-identifier pattern
    (a [C] followed by at least eight uppercase letters or digits),
    [getChannelId] returns the input unchanged and leaves the trace as it
    was: no channel-listing call, and no other call, is issued.  Resolving
    the result once more therefore changes nothing. *)
Theorem getChannelId_canonical (s : string) (w : World) (tr : Trace) :
  Spec.canonical_channel_id s = true ->
  getChannelId (VStr s) w tr = (Ok (VStr s), tr)
  /\ bind (getChannelId (VStr s)) getChannelId w tr = getChannelId (VStr s) w tr.
Proof.
  intros H.
  assert (E : getChannelId (VStr s) w tr = (Ok (VStr s), tr)).
  { unfold getChannelId. cbn [Js.ToString]. now rewrite test_channel_id, H. }
  split; [exact E|].
  unfold bind. now rewrite E.
Qed.

Lemma getChannelId_canonical_witness :
  Spec.canonical_channel_id "C123ABC456" = true
  /\ getChannelId (VStr "C123ABC456") Sample.world [] = (Ok (VStr "C123ABC456"), []).
Proof.
  split; [reflexivity|].
  apply (getChannelId_canonical "C123ABC456" Sample.world []). reflexivity.
Defined.

(** ** More on strings: occurrences *)

Lemma includes_iff (sub s : string) :
  Str.includes sub s = true <-> exists pre post, s = pre ++ sub ++ post.
Proof.
  split.
  - induction s as [|c s IH]; cbn [Str.includes].
    + destruct (Str.startsWith sub "") eqn:E; [|discriminate].
      intros _. destruct (startsWith_split _ _ E) as [post ->].
      now exists "", post.
    + destruct (Str.startsWith sub (String c s)) eqn:E.
      * intros _. destruct (startsWith_split _ _ E) as [post ->].
        now exists "", post.
      * intros H. destruct (IH H) as (pre & post & ->).
        now exists (String c pre), post.
  - intros (pre & post & ->). apply includes_app.
Qed.

Lemma includes_mid (sub a s b : string) :
  Str.includes sub s = true -> Str.includes sub (a ++ s ++ b) = true.
Proof.
  intros H. apply includes_iff in H. destruct H as (pre & post & ->).
  apply includes_iff. exists (a ++ pre), (post ++ b).
  now rewrite !append_assoc.
Qed.

Lemma includes_refl (s : string) : Str.includes s s = true.
Proof. apply includes_iff. exists "", "". cbn. now rewrite append_nil_r. Qed.

Lemma includes_join (sep p : string) (parts : list string) :
  In p parts -> Str.includes p (Str.join sep parts) = true.
Proof.
  induction parts as [|q parts IH]; [contradiction|].
  intros [->|H].
  - destruct parts; cbn [Str.join]; [apply includes_refl | apply includes_prefix].
  - specialize (IH H). destruct parts as [|q' parts]; [contradiction|].
    change (Str.join sep (q :: q' :: parts))
      with (q ++ sep ++ Str.join sep (q' :: parts)).
    rewrite <- append_assoc.
    rewrite <- (append_nil_r (Str.join sep (q' :: parts))).
    now apply includes_mid.
Qed.

Lemma includes_wrap (l r gap indent p : string) (parts : list string) :
  In p parts -> Str.includes p (JSON.wrap l r gap indent parts) = true.
Proof.
  intros H. pose proof (includes_join "," p parts H) as Hc.
  pose proof (includes_join ("," ++ Str.nl ++ indent ++ gap) p parts H) as Hg.
  unfold JSON.wrap. destruct parts as [|q parts]; [contradiction|].
  destruct (Str.is_empty gap).
  - now apply includes_mid.
  - cbv zeta.
    set (J := Str.join ("," ++ Str.nl ++ indent ++ gap) (q :: parts)) in *.
    replace (l ++ Str.nl ++ (indent ++ gap) ++ J ++ Str.nl ++ indent ++ r)
      with ((l ++ Str.nl ++ indent ++ gap) ++ J ++ Str.nl ++ indent ++ r)
      by now rewrite !append_assoc.
    now apply includes_mid.
Qed.

(** ** The dispatcher *)

Section Dispatch.

Variable StringToNumber : string -> number.
Variable cfg : Config.

Lemma call_tool_create (args : option object) :
  call_tool StringToNumber cfg (mkRequest "create_devin_session" args)
  = create_devin_session StringToNumber cfg args.
Proof. reflexivity. Qed.

Lemma call_tool_get (args : option object) :
  call_tool StringToNumber cfg (mkRequest "get_devin_session" args)
  = get_devin_session cfg args.
Proof. reflexivity. Qed.

Lemma call_tool_send (args : option object) :
  call_tool StringToNumber cfg (mkRequest "send_message_to_session" args)
  = send_message_to_session cfg args.
Proof. reflexivity. Qed.

Lemma call_tool_list (args : option object) :
  call_tool StringToNumber cfg (mkRequest "list_devin_sessions" args)
  = list_devin_sessions StringToNumber cfg args.
Proof. reflexivity. Qed.

End Dispatch.

(** ** What the Slack helpers put on the trace *)

Lemma find_devin_user_emits : emits (fun ev => is_lookup ev = true) find_devin_user.
Proof. unfold find_devin_user, usersList. repeat trace_step. Qed.

Lemma find_devin_user_total : total find_devin_user.
Proof.
  intros w tr. unfold find_devin_user, try_catch.
  destruct (bind usersList _ w tr) as [[v|e] tr1]; cbn; eauto.
Qed.

Lemma sendSlackMessage_emits (channel : value) (txt : string) (ts : value) :
  emits (fun ev => is_lookup ev = true \/ is_chat_post ev = true)
        (sendSlackMessage channel txt ts).
Proof.
  unfold sendSlackMessage, chatPostMessage. repeat trace_step.
  eapply emits_weaken; [|apply getChannelId_emits]. intros ev H; now left.
Qed.

Lemma emits_any {A} (P : Event -> Prop) (m : M A) :
  emits P m -> emits (fun _ => True) m.
Proof. apply emits_weaken; auto. Qed.

Ltac trace_any :=
  repeat first
    [ eapply emits_any; first [ apply getChannelId_emits
                              | apply find_devin_user_emits
                              | apply sendSlackMessage_emits ]
    | trace_step ].

(** A [try] block that starts with an outbound call: the call is the first
    event, whatever happens next. *)
Lemma try_starts_with {A B} (ev : Event) (answer : World -> Trace -> Outcome A)
    (k : A -> M B) (h : exn -> M B) (w : World) (tr : Trace) :
  (forall a, emits (fun _ => True) (k a)) ->
  (forall e, emits (fun _ => True) (h e)) ->
  exists out d,
    try_catch (bind (emit ev answer) k) h w tr = (out, (tr ++ ev :: d)%list).
Proof.
  intros Hk Hh. unfold try_catch, bind, emit.
  destruct (answer w tr) as [a|e].
  - destruct (Hk a w (tr ++ [ev])%list) as (d & E & _).
    destruct (k a w (tr ++ [ev])%list) as [[b|e] tr1]; cbn in E; subst tr1.
    + exists (Ok b), d. now rewrite <- app_assoc.
    + destruct (Hh e w ((tr ++ [ev]) ++ d)%list) as (d' & E' & _).
      destruct (h e w ((tr ++ [ev]) ++ d)%list) as [out tr2]; cbn in E'; subst tr2.
      exists out, (d ++ d')%list. now rewrite <- !app_assoc.
  - destruct (Hh e w (tr ++ [ev])%list) as (d' & E' & _).
    destruct (h e w (tr ++ [ev])%list) as [out tr2]; cbn in E'; subst tr2.
    exists out, d'. now rewrite <- app_assoc.
Qed.

(** ** Required arguments *)

(** C1 (the code at the failing inputs).  A request that omits the required
    argument is not rejected: [String(undefined)] is the text [undefined],
    which is not empty, so the guard [if (!prompt)] lets it through.  With
    no arguments at all, [create_devin_session] posts the prompt
    [undefined] to the create-session endpoint and [get_devin_session]
    queries the session [undefined]; with only a session id,
    [send_message_to_session] posts the message [undefined].  In each case
    the outbound call is the first thing the handler does, in every world;
    against a friendly upstream the result is a success.  The server
    without Slack has the same guard and does the same. *)
Theorem missing_required_argument_reaches_upstream
    (StringToNumber : string -> number) (cfg : Config) (w : World) (tr0 : Trace) :
  (exists out d,
      call_tool StringToNumber cfg (mkRequest "create_devin_session" (Some [])) w tr0
      = (out,
         (tr0 ++ AxiosPost (BASE_URL cfg ++ "/session")
                           (VObj [("prompt", VStr "undefined");
                                  ("idempotent", VBool false)])
                           (getHeaders cfg) :: d)%list))
  /\ (exists out d,
         call_tool StringToNumber cfg (mkRequest "get_devin_session" (Some [])) w tr0
         = (out,
            (tr0 ++ AxiosGet (BASE_URL cfg ++ "/session/undefined") []
                             (getHeaders cfg) :: d)%list))
  /\ (exists out d,
         call_tool StringToNumber cfg
           (mkRequest "send_message_to_session" (Some [("session_id", VStr "s1")])) w tr0
         = (out,
            (tr0 ++ AxiosPost (BASE_URL cfg ++ "/session/s1/message")
                              (VObj [("message", VStr "undefined")])
                              (getHeaders cfg) :: d)%list))
  /\ isError_of (Sample.call (mkRequest "create_devin_session" (Some [])) Sample.world)
     = Some false
  /\ (exists out d,
         Plain.call_tool StringToNumber cfg
           (mkRequest "create_devin_session" (Some [])) w tr0
         = (out,
            (tr0 ++ AxiosPost (BASE_URL cfg ++ "/sessions")
                              (VObj [("prompt", VStr "undefined");
                                     ("idempotent", VBool false)])
                              (getHeaders cfg) :: d)%list)).
Proof.
  split; [|split; [|split; [|split]]].
  - rewrite call_tool_create. apply try_starts_with; intros; trace_any.
  - rewrite call_tool_get. apply try_starts_with; intros; trace_any.
  - rewrite call_tool_send. apply try_starts_with; intros; trace_any.
  - reflexivity.
  - change (Plain.call_tool StringToNumber cfg
              (mkRequest "create_devin_session" (Some [])))
      with (Plain.create_devin_session StringToNumber cfg (Some [])).
    apply try_starts_with; intros; trace_any.
Qed.

(** ** send_message_to_session *)

Lemma serialize_object (gap indent : string) (o : object) :
  JSON.serialize gap indent (VObj o) =
  Some (JSON.wrap "{" "}" gap indent
          (flat_map (fun kv => match kv with
                               | (k, e) =>
                                   match JSON.serialize gap (indent ++ gap) e with
                                   | Some s => [JSON.quote k ++ JSON.colon gap ++ s]
                                   | None => []
                                   end
                               end) o)).
Proof. reflexivity. Qed.

Section SendMessage.

Variable StringToNumber : string -> number.
Variable cfg : Config.
Variable args : option object.

Let session_id := Js.ToString (arg args "session_id").
Let message := Js.ToString (arg args "message").
Let slack_channel := arg args "slack_channel".
Let slack_thread_ts := arg args "slack_thread_ts".
Let url := BASE_URL cfg ++ "/session/" ++ normalizeSessionId session_id ++ "/message".
Let body := VObj [("message", VStr message)].
Let request := mkRequest "send_message_to_session" args.


End SendMessage.



(** C4, as stated, fails: the agent accepts the message with HTTP 200 and an
    empty body, the caller asked for a relay into a Slack thread, and Slack
    is unreachable.  The error thrown by the relay lands in the [catch] of
    the tool case, so the result carries the error flag and no
    [success: true]. *)
Lemma send_2xx_relay_failure_is_error :
  axios_post Sample.world_slack_down []
    "https://api.devin.ai/v1/session/abc/message"
    (VObj [("message", VStr "hello")]) (getHeaders Sample.cfg)
    = Ok (mkResponse 200 (VStr ""))
  /\ Sample.call Sample.send_request_with_thread Sample.world_slack_down
     = (Ok {| text := Some "Unexpected error: Error: An API error occurred: invalid_auth";
              isError := true |},
        [AxiosPost "https://api.devin.ai/v1/session/abc/message"
                   (VObj [("message", VStr "hello")]) (getHeaders Sample.cfg);
         ConversationsList;
         ConsoleError
           "Error resolving channel name to ID: Error: An API error occurred: invalid_auth"
           None;
         ConsoleError "Error sending message to Slack:" (Some Sample.slack_down)]).
Proof. split; reflexivity. Qed.

Section SendMessageSuccess.

Variable StringToNumber : string -> number.
Variable cfg : Config.
Variable args : option object.

Let session_id := Js.ToString (arg args "session_id").
Let message := Js.ToString (arg args "message").
Let slack_channel := arg args "slack_channel".
Let slack_thread_ts := arg args "slack_thread_ts".
Let url := BASE_URL cfg ++ "/session/" ++ normalizeSessionId session_id ++ "/message".
Let body := VObj [("message", VStr message)].
Let request := mkRequest "send_message_to_session" args.

Lemma success_payload_text (d c t : value) (r : option object) :
  exists txt,
    JSON.stringify2 (send_success_payload d c t r) = Some txt
    /\ Str.includes (JSON.quote "success" ++ ": true") txt = true.
Proof.
  unfold JSON.stringify2, send_success_payload. rewrite serialize_object.
  eexists; split; [reflexivity|].
  apply includes_wrap. apply in_flat_map.
  exists ("success", VBool true). split; [right; left; reflexivity | left; reflexivity].
Qed.

(** C4 (amended).  When the post to the message endpoint returns a status in
    [200, 300), whatever the body, and either no relay into a Slack thread
    was asked for (no channel or no thread reference) or the relay succeeds,
    the result has no error flag and its text is the serialization of an
    object whose field [success] is [true]; the text contains
    ["success": true]. *)
Theorem send_message_2xx_success (w : World) (tr0 : Trace) (resp : HttpResponse) :
  Str.is_empty session_id = false ->
  Str.is_empty message = false ->
  axios_post w tr0 url body (getHeaders cfg) = Ok resp ->
  (200 <= status resp < 300)%Z ->
  (Js.truthy slack_channel && Js.truthy slack_thread_ts = true ->
   exists r tr1,
     sendSlackMessage slack_channel message slack_thread_ts w
       (tr0 ++ [AxiosPost url body (getHeaders cfg)])%list = (Ok r, tr1)) ->
  exists txt tr payload,
    call_tool StringToNumber cfg request w tr0
      = (Ok {| text := Some txt; isError := false |}, tr)
    /\ JSON.stringify2 (VObj payload) = Some txt
    /\ Js.get payload "success" = VBool true
    /\ Str.includes (JSON.quote "success" ++ ": true") txt = true.
Proof.
  intros Hs Hm Hpost [Hlo Hhi] Hrelay.
  assert (Hok : (200 <=? status resp)%Z && (status resp <? 300)%Z = true).
  { apply andb_true_intro; split; [now apply Z.leb_le | now apply Z.ltb_lt]. }
  unfold request. rewrite call_tool_send. unfold send_message_to_session.
  fold session_id message slack_channel slack_thread_ts. rewrite Hs, Hm.
  unfold try_catch, bind, axiosPost, emit. fold url body. rewrite Hpost, Hok.
  cbn [andb].
  destruct (Js.truthy slack_channel && Js.truthy slack_thread_ts) eqn:Hb.
  - destruct (Hrelay eq_refl) as (r & tr1 & Er). rewrite Er. cbn [ret].
    destruct (success_payload_text (data resp) slack_channel slack_thread_ts (Some r))
      as (txt & Et & Hi).
    exists txt, tr1. eexists. unfold ok_result. rewrite Et.
    split; [reflexivity|]. split; [exact Et|]. split; [reflexivity | exact Hi].
  - cbn [ret].
    destruct (success_payload_text (data resp) slack_channel slack_thread_ts None)
      as (txt & Et & Hi).
    exists txt. eexists. eexists. unfold ok_result. rewrite Et.
    split; [reflexivity|]. split; [exact Et|]. split; [reflexivity | exact Hi].
Qed.

End SendMessageSuccess.

Lemma send_message_2xx_success_witness :
  exists txt tr,
    Sample.call Sample.send_request_with_thread Sample.world
      = (Ok {| text := Some txt; isError := false |}, tr)
    /\ Str.includes (JSON.quote "success" ++ ": true") txt = true.
Proof.
  destruct (send_message_2xx_success Sample.StringToNumber Sample.cfg
              (arguments Sample.send_request_with_thread) Sample.world []
              (mkResponse 200 Sample.session) eq_refl eq_refl eq_refl)
    as (txt & tr & payload & E & _ & _ & H).
  - cbn [status]. lia.
  - intros _. eexists. eexists. reflexivity.
  - exists txt, tr. split; assumption.
Defined.

(** ** Objects *)

Lemma get_set_same (k : string) (v : value) (o : object) :
  Js.get (Js.set k v o) k = v.
Proof.
  unfold Js.get. induction o as [|[k' v'] o IH]; cbn.
  - now rewrite String.eqb_refl.
  - destruct (String.eqb k k') eqn:E; cbn; rewrite ?String.eqb_refl, ?E; auto.
Qed.

Lemma get_set_other (k k' : string) (v : value) (o : object) :
  k <> k' -> Js.get (Js.set k v o) k' = Js.get o k'.
Proof.
  intros N. unfold Js.get. induction o as [|[k1 v1] o IH]; cbn.
  - apply String.eqb_neq in N. rewrite String.eqb_sym in N. now rewrite N.
  - destruct (String.eqb k k1) eqn:E; cbn.
    + apply String.eqb_eq in E; subst k1.
      assert (E' : String.eqb k' k = false)
        by (rewrite String.eqb_sym; now apply String.eqb_neq).
      now rewrite E'.
    + destruct (String.eqb k' k1); auto.
Qed.

Lemma truthy_string (v : value) :
  Js.truthy v = true ->
  match v with VStr s => Str.is_empty s = false | _ => True end.
Proof. destruct v; cbn; auto. intros H. now destruct s. Qed.

(** ** get_devin_session *)

(** What [if (data && data.session_id)] does to a well-typed session. *)
Lemma attach_session_ids_typed (d : value) :
  session_id_well_typed d ->
  exists out, attach_session_ids d = Ok out /\ same_other_fields d out.
Proof.
  unfold session_id_well_typed, attach_session_ids, same_other_fields.
  destruct d as [| |b|n|s|l|o]; cbn.
  all: try solve [intros _; eexists; split; [reflexivity | reflexivity]].
  - intros _. destruct b; eexists; split; reflexivity.
  - intros _. destruct (Js.number_truthy n); eexists; split; reflexivity.
  - intros _. destruct (negb (Str.is_empty s)); eexists; split; reflexivity.
  - destruct (Js.get o "session_id") as [| |b|n|s|l|o'] eqn:E; cbn;
      intros H; try discriminate H; rewrite ?H;
      try solve [eexists; split; reflexivity].
    destruct (negb (Str.is_empty s)); [|eexists; split; reflexivity].
    unfold with_session_ids; cbn. eexists; split; [reflexivity|].
    intros k N1 N2. cbn.
    rewrite get_set_other by congruence. now rewrite get_set_other by congruence.
Qed.

Lemma fetch_messages_keeps_id (cfg : Config) (sid : string) (o : object)
    (w : World) (tr : Trace) :
  exists o1 tr1,
    fetch_messages cfg sid (VObj o) w tr = (Ok (VObj o1), tr1)
    /\ Js.get o1 "session_id" = Js.get o "session_id".
Proof.
  unfold fetch_messages, try_catch, bind, axiosGet, emit, consoleError, lift, ret.
  destruct (axios_get w tr _ _ _) as [r|e].
  - destruct (Js.member (data r) "messages") as [m|e].
    + eexists; eexists; split; [reflexivity|].
      cbn [Js.spread]. now apply get_set_other.
    + eexists; eexists; split; reflexivity.
  - eexists; eexists; split; reflexivity.
Qed.

Lemma lookup_set_other (k k' : string) (v : value) (o : object) :
  k <> k' -> Js.lookup k' (Js.set k v o) = Js.lookup k' o.
Proof.
  intros N. induction o as [|[k1 v1] o IH]; cbn.
  - apply String.eqb_neq in N. rewrite String.eqb_sym in N. now rewrite N.
  - destruct (String.eqb k k1) eqn:E; cbn.
    + apply String.eqb_eq in E; subst k1.
      assert (E' : String.eqb k' k = false)
        by (rewrite String.eqb_sym; now apply String.eqb_neq).
      now rewrite E'.
    + destruct (String.eqb k' k1); auto.
Qed.

(** The message history only touches [messages]. *)
Lemma fetch_messages_object (cfg : Config) (sid : string) (o : object)
    (w : World) (tr : Trace) :
  exists o1 tr1,
    fetch_messages cfg sid (VObj o) w tr = (Ok (VObj o1), tr1)
    /\ (forall k, k <> "messages" -> Js.lookup k o1 = Js.lookup k o).
Proof.
  unfold fetch_messages, try_catch, bind, axiosGet, emit, consoleError, lift, ret.
  destruct (axios_get w tr _ _ _) as [r|e].
  - destruct (Js.member (data r) "messages") as [m|e].
    + eexists; eexists; split; [reflexivity|].
      intros k N. cbn [Js.spread]. apply lookup_set_other. congruence.
    + eexists; eexists; split; reflexivity.
  - eexists; eexists; split; reflexivity.
Qed.

Section GetSession.

Variable StringToNumber : string -> number.
Variable cfg : Config.
Variable args : option object.

Let session_id := Js.ToString (arg args "session_id").
Let url := BASE_URL cfg ++ "/session/" ++ normalizeSessionId session_id.
Let history_url :=
  BASE_URL cfg ++ "/session/" ++ normalizeSessionId session_id ++ "/message".
Let primary := AxiosGet url [] (getHeaders cfg).
Let secondary := AxiosGet history_url [] (getHeaders cfg).
Let request := mkRequest "get_devin_session" args.


(** C7 (amended).  The get-session call returns an object.  When its
    [session_id] is a non-empty string, the payload of the result, with or
    without the message history, carries the normalized id under
    [session_id] and the id as the upstream sent it under
    [original_session_id].  When it has no [session_id], or a falsy one,
    neither field is added or changed: the payload is the response, with
    nothing but [messages] set on it when the history was asked for and
    answered. *)
Theorem get_session_reattaches_ids
    (w : World) (tr0 : Trace) (resp : HttpResponse) (o : object) :
  Str.is_empty session_id = false ->
  axios_get w tr0 url [] (getHeaders cfg) = Ok resp ->
  data resp = VObj o ->
  (forall s,
      Js.get o "session_id" = VStr s ->
      Str.is_empty s = false ->
      exists payload tr,
        call_tool StringToNumber cfg request w tr0
        = (Ok {| text := JSON.stringify2 (VObj payload); isError := false |}, tr)
        /\ Js.get payload "session_id" = VStr (normalizeSessionId s)
        /\ Js.get payload "original_session_id" = VStr s)
  /\ (Js.truthy (Js.get o "session_id") = false ->
      exists payload tr,
        call_tool StringToNumber cfg request w tr0
        = (Ok {| text := JSON.stringify2 (VObj payload); isError := false |}, tr)
        /\ (forall k, k <> "messages" -> Js.lookup k payload = Js.lookup k o)
        /\ (Js.truthy (arg args "fetch_slack_info") = false -> payload = o)).
Proof.
  intros Hs Hget Hd.
  assert (Hrun : forall flag,
            Js.truthy (arg args "fetch_slack_info") = flag ->
            call_tool StringToNumber cfg request w tr0
            = let (o1, tr1) :=
                if flag
                then fetch_messages cfg session_id (VObj o) w
                       (tr0 ++ [AxiosGet url [] (getHeaders cfg)])%list
                else (Ok (VObj o), (tr0 ++ [AxiosGet url [] (getHeaders cfg)])%list) in
              match o1 with
              | Ok d1 =>
                  (Ok match attach_session_ids d1 with
                      | Ok d2 => ok_result (JSON.stringify2 d2)
                      | Throw e => catch_result "Error getting session" e
                      end, tr1)
              | Throw e => (Ok (catch_result "Error getting session" e), tr1)
              end).
  { intros flag Hf. unfold request. rewrite call_tool_get. unfold get_devin_session.
    fold session_id. rewrite Hs, Hf.
    unfold try_catch at 1. unfold bind at 1. unfold axiosGet at 1. unfold emit at 1.
    fold url. rewrite Hget, Hd. unfold bind at 1.
    destruct flag.
    - destruct (fetch_messages cfg session_id (VObj o) w _) as [[d1|e] tr1];
        [|reflexivity].
      unfold bind, lift, ret. now destruct (attach_session_ids d1).
    - unfold ret at 1. unfold bind, lift, ret.
      now destruct (attach_session_ids (VObj o)). }
  split.
  - intros s Ho Hne.
    assert (Hattach : forall o1, Js.get o1 "session_id" = VStr s ->
              attach_session_ids (VObj o1)
              = Ok (VObj (Js.set "session_id" (VStr (normalizeSessionId s))
                            (Js.set "original_session_id" (VStr s) o1)))).
    { intros o1 H1. unfold attach_session_ids. cbn [Js.truthy Js.member obind].
      rewrite H1. cbn [Js.truthy]. now rewrite Hne. }
    destruct (Js.truthy (arg args "fetch_slack_info")) eqn:Hf;
      rewrite (Hrun _ eq_refl).
    + destruct (fetch_messages_keeps_id cfg session_id o w
                  (tr0 ++ [AxiosGet url [] (getHeaders cfg)])%list)
        as (o1 & tr1 & E1 & Hid).
      rewrite E1, (Hattach o1) by congruence.
      eexists; eexists; split; [reflexivity|]. split.
      * apply get_set_same.
      * rewrite get_set_other by discriminate. apply get_set_same.
    + rewrite (Hattach o Ho).
      eexists; eexists; split; [reflexivity|]. split.
      * apply get_set_same.
      * rewrite get_set_other by discriminate. apply get_set_same.
  - intros Hfalsy.
    assert (Hattach : forall o1, Js.lookup "session_id" o1 = Js.lookup "session_id" o ->
              attach_session_ids (VObj o1) = Ok (VObj o1)).
    { intros o1 H1. unfold attach_session_ids. cbn [Js.truthy Js.member obind].
      unfold Js.get in *. rewrite H1. now rewrite Hfalsy. }
    destruct (Js.truthy (arg args "fetch_slack_info")) eqn:Hf;
      rewrite (Hrun _ eq_refl).
    + destruct (fetch_messages_object cfg session_id o w
                  (tr0 ++ [AxiosGet url [] (getHeaders cfg)])%list)
        as (o1 & tr1 & E1 & Hk).
      rewrite E1, (Hattach o1) by (apply Hk; discriminate).
      exists o1, tr1. split; [reflexivity|]. split; [exact Hk | discriminate].
    + rewrite (Hattach o eq_refl).
      exists o. eexists. split; [reflexivity|]. split; [reflexivity | reflexivity].
Qed.

End GetSession.



Lemma get_session_reattaches_ids_witness :
  (exists payload tr,
      Sample.call Sample.get_request Sample.world
      = (Ok {| text := JSON.stringify2 (VObj payload); isError := false |}, tr)
      /\ Js.get payload "session_id" = VStr "abc"
      /\ Js.get payload "original_session_id" = VStr "devin-abc")
  /\ (exists payload tr,
         Sample.call Sample.get_request_with_history Cases.world_no_id_with_history
         = (Ok {| text := JSON.stringify2 (VObj payload); isError := false |}, tr)
         /\ Js.lookup "session_id" payload = None
         /\ Js.lookup "original_session_id" payload = None
         /\ Js.lookup "status" payload = Some (VStr "running")).
Proof.
  split.
  - exact (proj1 (get_session_reattaches_ids Sample.StringToNumber Sample.cfg
                    (arguments Sample.get_request) Sample.world []
                    (mkResponse 200 Sample.session)
                    [("session_id", VStr "devin-abc");
                     ("url", VStr "https://app.devin.ai/sessions/abc");
                     ("is_new_session", VBool true)]
                    eq_refl eq_refl eq_refl) "devin-abc" eq_refl eq_refl).
  - destruct (proj2 (get_session_reattaches_ids Sample.StringToNumber Sample.cfg
                       (arguments Sample.get_request_with_history)
                       Cases.world_no_id_with_history []
                       (mkResponse 200 (VObj [("status", VStr "running")]))
                       [("status", VStr "running")]
                       eq_refl eq_refl eq_refl) eq_refl)
      as (payload & tr & E & Hk & _).
    exists payload, tr. split; [exact E|].
    rewrite !Hk by discriminate. repeat split; reflexivity.
Defined.

(** C7, as stated, fails: the upstream answers without a [session_id], the
    guard [if (data && data.session_id)] is not taken, and the payload has
    neither [session_id] nor [original_session_id]. *)
Lemma get_session_without_id_has_no_ids :
  exists txt,
    text_of (Sample.call Sample.get_request Sample.world_no_id) = Some txt
    /\ isError_of (Sample.call Sample.get_request Sample.world_no_id) = Some false
    /\ Str.includes "session_id" txt = false
    /\ Str.includes "original_session_id" txt = false.
Proof. eexists. repeat split; reflexivity. Qed.

(** ** list_devin_sessions *)

Lemma catch_result_isError (what : string) (e : exn) :
  isError (catch_result what e) = true.
Proof. now destruct e. Qed.

Lemma mapM_Forall2 (f : value -> Outcome value) (R : value -> value -> Prop) :
  (forall x y, f x = Ok y -> R x y) ->
  forall l l', mapM f l = Ok l' -> Forall2 R l l'.
Proof.
  intros Hf. induction l as [|x l IH]; intros l' H; cbn in H.
  - injection H as <-. constructor.
  - destruct (f x) as [y|e] eqn:Ex; cbn in H; [|discriminate].
    destruct (mapM f l) as [ys|e] eqn:El; cbn in H; [|discriminate].
    injection H as <-. constructor; auto.
Qed.

Lemma normalize_entry_spec (session out : value) :
  normalize_entry session = Ok out -> entry_normalized session out.
Proof.
  unfold normalize_entry, entry_normalized.
  destruct session as [| |b|n|s|l|o]; cbn; try discriminate;
    try (intros H; injection H as <-; reflexivity).
  destruct (Js.get o "session_id") as [| |b|n|s|l|o'] eqn:E; cbn;
    try (intros H; injection H as <-; reflexivity).
  - destruct b; cbn; [discriminate|]. intros H; injection H as <-; reflexivity.
  - destruct (Js.number_truthy n); cbn; [discriminate|].
    intros H; injection H as <-; reflexivity.
  - destruct (Str.is_empty s); cbn; intros H; injection H as <-; [reflexivity|].
    cbn. split; [apply get_set_same|]. split.
    + rewrite get_set_other by discriminate. apply get_set_same.
    + intros k N1 N2. cbn.
      rewrite get_set_other by congruence. now rewrite get_set_other by congruence.
  - discriminate.
  - discriminate.
Qed.

Section ListSessions.

Variable StringToNumber : string -> number.
Variable cfg : Config.
Variable args : option object.

Let request := mkRequest "list_devin_sessions" args.

(** C8 (amended).  In every list_devin_sessions invocation that returns
    without the error flag, the text is the serialization of the upstream
    object in which [sessions], when it is an array, is replaced entry by
    entry: an entry whose [session_id] is a non-empty string comes back with
    the normalized id under [session_id], the original id under
    [original_session_id] and all its other fields unchanged; every other
    entry (no [session_id], or an empty one) comes back as it was.  The
    fields of the response besides [sessions] are unchanged. *)
Theorem list_sessions_normalized
    (w : World) (tr0 tr : Trace) (res : CallToolResult) :
  call_tool StringToNumber cfg request w tr0 = (Ok res, tr) ->
  isError res = false ->
  exists resp payload,
    axios_get w tr0 (BASE_URL cfg ++ "/session")
      (list_params (number_or_undefined StringToNumber (arg args "limit"))
                   (number_or_undefined StringToNumber (arg args "offset")))
      (getHeaders cfg) = Ok resp
    /\ text res = JSON.stringify2 (VObj payload)
    /\ (forall k, k <> "sessions" ->
                  Js.get payload k = Js.get (Js.spread (data resp)) k)
    /\ match Js.get (Js.spread (data resp)) "sessions" with
       | VArr sessions =>
           exists out, Js.get payload "sessions" = VArr out
                       /\ Forall2 entry_normalized sessions out
       | v => Js.get payload "sessions" = v
       end.
Proof.
  unfold request. rewrite call_tool_list. unfold list_devin_sessions.
  unfold try_catch, bind, axiosGet, emit, lift, ret.
  destruct (axios_get w tr0 _ _ _) as [resp|e].
  2:{ intros H; injection H as <- _. now rewrite catch_result_isError. }
  destruct (normalize_sessions (data resp)) as [payload|e] eqn:En.
  2:{ intros H; injection H as <- _. now rewrite catch_result_isError. }
  intros H _; injection H as <- _.
  exists resp, payload. split; [reflexivity|]. split; [reflexivity|].
  unfold normalize_sessions in En.
  destruct (Js.get (Js.spread (data resp)) "sessions") as [| |b|n|s|sessions|o] eqn:Es;
    try (injection En as <-; split; [reflexivity | exact Es]).
  destruct (mapM normalize_entry sessions) as [out|e] eqn:Em; cbn in En; [|discriminate].
  injection En as <-. split.
  - intros k N. apply get_set_other. congruence.
  - exists out. split; [apply get_set_same|].
    exact (mapM_Forall2 normalize_entry entry_normalized normalize_entry_spec _ _ Em).
Qed.

End ListSessions.

Lemma list_sessions_normalized_witness :
  exists payload out,
    text_of (Sample.call Sample.list_request Sample.world_listing)
      = JSON.stringify2 (VObj payload)
    /\ Js.get payload "sessions" = VArr out
    /\ Forall2 entry_normalized
         [VObj [("session_id", VStr "devin-1"); ("status", VStr "running")];
          VObj [("session_id", VStr ""); ("status", VStr "blocked")]]
         out.
Proof.
  destruct (list_sessions_normalized Sample.StringToNumber Sample.cfg None
              Sample.world_listing [] _ _ eq_refl eq_refl)
    as (resp & payload & Eg & Et & _ & Hs).
  injection Eg as <-. cbn in Hs. destruct Hs as (out & Eo & Hf).
  exists payload, out. repeat split; assumption.
Defined.

(** C8, as stated, fails: the second entry of the list has a [session_id]
    field, the empty string; the guard [if (session.session_id)] skips it
    and it comes back without [original_session_id]. *)
Lemma list_entry_with_empty_id_unchanged :
  exists nd,
    normalize_sessions Sample.listing = Ok nd
    /\ text_of (Sample.call Sample.list_request Sample.world_listing)
       = JSON.stringify2 (VObj nd)
    /\ isError_of (Sample.call Sample.list_request Sample.world_listing) = Some false
    /\ Js.get nd "sessions"
       = VArr [VObj [("session_id", VStr "1"); ("status", VStr "running");
                     ("original_session_id", VStr "devin-1")];
               VObj [("session_id", VStr ""); ("status", VStr "blocked")]].
Proof. eexists. repeat split; reflexivity. Qed.

(** ** create_devin_session *)

Lemma find_devin_user_run (w : World) (tr : Trace) :
  exists uid d,
    find_devin_user w tr = (Ok uid, (tr ++ d)%list)
    /\ Forall (fun ev => is_lookup ev = true) d.
Proof.
  destruct (find_devin_user_total w tr) as (uid & Eu).
  destruct (find_devin_user_emits w tr) as (d & Ed & F).
  exists uid, d. split; [|exact F].
  destruct (find_devin_user w tr) as [o tr1]. cbn [fst snd] in Eu, Ed.
  now subst o tr1.
Qed.

Lemma getChannelId_run (v : value) (w : World) (tr : Trace) :
  exists o d,
    getChannelId v w tr = (o, (tr ++ d)%list)
    /\ Forall (fun ev => is_lookup ev = true) d.
Proof.
  destruct (getChannelId_emits v w tr) as (d & Ed & F).
  destruct (getChannelId v w tr) as [o tr1] eqn:E; cbn in Ed; subst tr1.
  now exists o, d.
Qed.

Lemma sendSlackMessage_run (channel : value) (txt : string) (ts : value)
    (w : World) (tr : Trace) :
  sendSlackMessage channel txt ts w tr =
  match getChannelId channel w tr with
  | (Ok id, tr1) =>
      match chat_postMessage w tr1 id txt ts true with
      | Ok r => (Ok r, (tr1 ++ [ChatPostMessage id txt ts true])%list)
      | Throw e =>
          (Throw e,
           (tr1 ++ [ChatPostMessage id txt ts true;
                    ConsoleError "Error sending message to Slack:" (Some e)])%list)
      end
  | (Throw e, tr1) =>
      (Throw e, (tr1 ++ [ConsoleError "Error sending message to Slack:" (Some e)])%list)
  end.
Proof.
  unfold sendSlackMessage, try_catch, bind, chatPostMessage, emit, consoleError, throw.
  destruct (getChannelId channel w tr) as [[id|e] tr1]; [|reflexivity].
  destruct (chat_postMessage w tr1 id txt ts true); [reflexivity|].
  now rewrite <- app_assoc.
Qed.

Lemma slack_only_ret {A} (a : A) : slack_only (ret a).
Proof. now intros w w' tr _. Qed.

Lemma slack_only_throw {A} (e : exn) : slack_only (@throw A e).
Proof. now intros w w' tr _. Qed.

Lemma slack_only_lift {A} (o : Outcome A) : slack_only (lift o).
Proof. now intros w w' tr _. Qed.

Lemma slack_only_console (msg : string) (e : option exn) :
  slack_only (consoleError msg e).
Proof. now intros w w' tr _. Qed.

Lemma slack_only_bind {A B} (m : M A) (k : A -> M B) :
  slack_only m -> (forall a, slack_only (k a)) -> slack_only (bind m k).
Proof.
  intros Hm Hk w w' tr H. unfold bind. rewrite (Hm w w' tr H).
  destruct (m w' tr) as [[a|e] tr1]; [now apply Hk | reflexivity].
Qed.

Lemma slack_only_try_catch {A} (m : M A) (h : exn -> M A) :
  slack_only m -> (forall e, slack_only (h e)) -> slack_only (try_catch m h).
Proof.
  intros Hm Hh w w' tr H. unfold try_catch. rewrite (Hm w w' tr H).
  destruct (m w' tr) as [[a|e] tr1]; [reflexivity | now apply Hh].
Qed.

Lemma slack_only_conversationsList : slack_only conversationsList.
Proof. intros w w' tr (H & _). unfold conversationsList, emit. now rewrite H. Qed.

Lemma slack_only_usersList : slack_only usersList.
Proof. intros w w' tr (_ & H & _). unfold usersList, emit. now rewrite H. Qed.

Lemma slack_only_chatPostMessage (c : value) (txt : string) (ts : value) (u : bool) :
  slack_only (chatPostMessage c txt ts u).
Proof. intros w w' tr (_ & _ & H). unfold chatPostMessage, emit. now rewrite H. Qed.

Ltac slack_step :=
  first [ apply slack_only_ret | apply slack_only_throw | apply slack_only_lift
        | apply slack_only_console
        | apply slack_only_conversationsList | apply slack_only_usersList
        | apply slack_only_chatPostMessage
        | apply slack_only_bind; [|intro]
        | apply slack_only_try_catch; [|intro]
        | match goal with
          | |- slack_only (if ?b then _ else _) => destruct b
          | |- slack_only (match ?x with _ => _ end) => destruct x
          end ].

Lemma find_devin_user_same : slack_only find_devin_user.
Proof. unfold find_devin_user. repeat slack_step. Qed.

Lemma getChannelId_same (v : value) : slack_only (getChannelId v).
Proof. unfold getChannelId. repeat slack_step. Qed.

Lemma sendSlackMessage_same (c : value) (txt : string) (ts : value) :
  slack_only (sendSlackMessage c txt ts).
Proof.
  unfold sendSlackMessage. repeat slack_step. apply getChannelId_same.
Qed.

Section CreateSession.

Variable StringToNumber : string -> number.
Variable cfg : Config.
Variable args : option object.

Let prompt := Js.ToString (arg args "prompt").
Let slack_channel :=
  Js.or (arg args "slack_channel") (VStr (SLACK_DEFAULT_CHANNEL cfg)).
Let url := BASE_URL cfg ++ "/session".
Let body :=
  VObj (create_request_body prompt (Js.truthy (arg args "idempotent"))
          (arg args "machine_snapshot_id")
          (number_or_undefined StringToNumber (arg args "max_acu"))).
Let post := AxiosPost url body (getHeaders cfg).
Let request := mkRequest "create_devin_session" args.
Let what := "Error creating session".

Lemma create_run (w : World) (tr0 : Trace) :
  Str.is_empty prompt = false ->
  call_tool StringToNumber cfg request w tr0 =
  match axios_post w tr0 url body (getHeaders cfg) with
  | Throw e => (Ok (catch_result what e), (tr0 ++ [post])%list)
  | Ok resp =>
      match find_devin_user w (tr0 ++ [post])%list with
      | (Throw e, tr1) => (Ok (catch_result what e), tr1)
      | (Ok uid, tr1) =>
          match sendSlackMessage slack_channel (slackMessage uid prompt) VUndefined w tr1 with
          | (Throw e, tr2) => (Ok (catch_result what e), tr2)
          | (Ok sr, tr2) =>
              (Ok match create_success cfg resp sr slack_channel with
                  | Ok res => res
                  | Throw e => catch_result what e
                  end, tr2)
          end
      end
  end.
Proof.
  intros Hp. unfold request. rewrite call_tool_create. unfold create_devin_session.
  fold prompt slack_channel. rewrite Hp.
  unfold try_catch, bind, axiosPost, emit. fold url body post.
  destruct (axios_post w tr0 url body (getHeaders cfg)) as [resp|e]; [|reflexivity].
  destruct (find_devin_user w (tr0 ++ [post])%list) as [[uid|e] tr1]; [|reflexivity].
  destruct (sendSlackMessage slack_channel (slackMessage uid prompt) VUndefined w tr1)
    as [[sr|e] tr2]; [|reflexivity].
  unfold lift, ret. now destruct (create_success cfg resp sr slack_channel).
Qed.


(** C10.  The create-session call returns a session, the channel resolves
    and [chat.postMessage] throws.  The error reaches the [catch] of the
    tool case: the result has the error flag set and is built from the
    thrown error alone (for a Slack error, the text [Unexpected error: ]
    followed by the error).  Neither the id nor the URL of the created
    session enters it: had the agent returned any other session, the
    result would be the same.  Yet the create-session call is on the
    trace: the session exists, and the caller is not told which. *)
Theorem create_session_post_failure
    (w : World) (tr0 : Trace) (resp : HttpResponse) (uid : value) (tr1 : Trace)
    (id : value) (tr2 : Trace) (e : exn) :
  Str.is_empty prompt = false ->
  axios_post w tr0 url body (getHeaders cfg) = Ok resp ->
  find_devin_user w (tr0 ++ [post])%list = (Ok uid, tr1) ->
  getChannelId slack_channel w tr1 = (Ok id, tr2) ->
  chat_postMessage w tr2 id (slackMessage uid prompt) VUndefined true = Throw e ->
  (exists d,
      call_tool StringToNumber cfg request w tr0
      = (Ok (catch_result what e),
         (tr0 ++ post :: d
              ++ [ChatPostMessage id (slackMessage uid prompt) VUndefined true;
                  ConsoleError "Error sending message to Slack:" (Some e)])%list))
  /\ isError (catch_result what e) = true
  /\ (forall name msg,
         e = Error name msg ->
         text (catch_result what e)
         = Some ("Unexpected error: " ++ Js.error_to_string e))
  /\ (forall (w' : World) (resp' : HttpResponse),
         same_slack w w' ->
         axios_post w' tr0 url body (getHeaders cfg) = Ok resp' ->
         call_tool StringToNumber cfg request w' tr0
         = call_tool StringToNumber cfg request w tr0).
Proof.
  intros Hp Hpost Hu Hc Hchat.
  assert (Hsend : sendSlackMessage slack_channel (slackMessage uid prompt) VUndefined w tr1
                  = (Throw e,
                     (tr2 ++ [ChatPostMessage id (slackMessage uid prompt) VUndefined true;
                              ConsoleError "Error sending message to Slack:" (Some e)])%list)).
  { now rewrite sendSlackMessage_run, Hc, Hchat. }
  assert (Hrun : call_tool StringToNumber cfg request w tr0
                 = (Ok (catch_result what e),
                    (tr2 ++ [ChatPostMessage id (slackMessage uid prompt) VUndefined true;
                             ConsoleError "Error sending message to Slack:" (Some e)])%list)).
  { now rewrite (create_run w tr0 Hp), Hpost, Hu, Hsend. }
  split; [|split; [apply catch_result_isError|split]].
  - destruct (find_devin_user_run w (tr0 ++ [post])%list) as (uid' & d1 & Eu & _).
    rewrite Hu in Eu. injection Eu as _ ->.
    destruct (getChannelId_run slack_channel w ((tr0 ++ [post]) ++ d1)%list)
      as (o & d2 & Ec & _).
    rewrite Hc in Ec. injection Ec as _ ->.
    exists (d1 ++ d2)%list. rewrite Hrun. f_equal. now rewrite <- !app_assoc.
  - now intros name msg ->.
  - intros w' resp' Hsame Hpost'.
    rewrite Hrun, (create_run w' tr0 Hp), Hpost'.
    rewrite <- (find_devin_user_same w w' _ Hsame), Hu.
    now rewrite <- (sendSlackMessage_same _ _ _ w w' _ Hsame), Hsend.
Qed.

End CreateSession.

Lemma create_session_post_failure_witness :
  isError_of (Sample.call Sample.create_request Sample.world_post_refused) = Some true
  /\ text_of (Sample.call Sample.create_request Sample.world_post_refused)
     = Some "Unexpected error: Error: An API error occurred: not_in_channel".
Proof.
  destruct (create_session_post_failure Sample.StringToNumber Sample.cfg
              (arguments Sample.create_request) Sample.world_post_refused []
              (mkResponse 200 Sample.session) (VStr "U42") _ (VStr "C123ABC456") _
              Sample.post_refused eq_refl eq_refl eq_refl eq_refl eq_refl)
    as ((d & E) & _).
  unfold Sample.call, run, isError_of, text_of.
  change (call_tool Sample.StringToNumber Sample.cfg Sample.create_request
            Sample.world_post_refused [])
    with (call_tool Sample.StringToNumber Sample.cfg
            (mkRequest "create_devin_session" (arguments Sample.create_request))
            Sample.world_post_refused []).
  rewrite E. split; reflexivity.
Defined.


Lemma filter_lookups (p : Event -> bool) (tr d : Trace) :
  filter p d = [] -> filter p (tr ++ d)%list = filter p tr.
Proof. intros H. now rewrite filter_app, H, app_nil_r. Qed.




(* ================================================================= *)
(** * Further properties of the server *)

(** ** The handler as a whole *)

Lemma total_ret {A} (a : A) : total (ret a).
Proof. intros w tr; now exists a. Qed.

Lemma total_try_catch_ret {A} (m : M A) (f : exn -> A) :
  total (try_catch m (fun e => ret (f e))).
Proof.
  intros w tr. unfold try_catch, ret.
  destruct (m w tr) as [[a|e] tr1]; cbn; eauto.
Qed.

Ltac total_step :=
  first [ apply total_ret | apply total_try_catch_ret
        | match goal with
          | |- total (if ?b then _ else _) => destruct b
          end ].

(** Past the conversions nothing escapes: whatever the request and whatever
    the two services do, every tool case of both servers returns a result
    envelope. *)
Lemma call_tool_total
    (StringToNumber : string -> number) (cfg : Config) (request : Request) :
  total (call_tool StringToNumber cfg request)
  /\ total (Plain.call_tool StringToNumber cfg request).
Proof.
  split.
  - unfold call_tool, create_devin_session, get_devin_session,
      send_message_to_session, list_devin_sessions, get_organization_info.
    repeat total_step.
  - unfold Plain.call_tool, Plain.create_devin_session, Plain.get_devin_session,
      Plain.send_message_to_session, Plain.list_devin_sessions, get_organization_info.
    repeat total_step.
Qed.

Lemma head_converts (StringToNumber : string -> number) (request : Request) :
  Convert.head StringToNumber request
  = if Convert.converts request then Ok tt else Throw Convert.not_primitive.
Proof.
  unfold Convert.head, Convert.converts, Convert.converted,
    Convert.to_string, Convert.to_number.
  repeat match goal with
         | |- context [String.eqb (name request) ?s] =>
             destruct (String.eqb (name request) s)
         end;
    cbn [forallb];
    repeat match goal with
           | |- context [Convert.convertible ?v] => destruct (Convert.convertible v)
           end;
    reflexivity.
Qed.

Lemma handle_converts
    (StringToNumber : string -> number) (cfg : Config) (request : Request)
    (w : World) (tr : Trace) :
  Convert.converts request = true ->
  handle StringToNumber cfg request w tr = call_tool StringToNumber cfg request w tr
  /\ plain_handle StringToNumber cfg request w tr
     = Plain.call_tool StringToNumber cfg request w tr.
Proof.
  intros H. unfold handle, plain_handle, bind, lift.
  rewrite head_converts, H. split; reflexivity.
Qed.

Lemma handle_throws
    (StringToNumber : string -> number) (cfg : Config) (request : Request)
    (w : World) (tr : Trace) :
  Convert.converts request = false ->
  handle StringToNumber cfg request w tr = (Throw Convert.not_primitive, tr)
  /\ plain_handle StringToNumber cfg request w tr = (Throw Convert.not_primitive, tr).
Proof.
  intros H. unfold handle, plain_handle, bind, lift.
  rewrite head_converts, H. split; reflexivity.
Qed.

(** X1.  The handler throws only from the conversions at the head of a tool
    case.  When [String(...)] and [Number(...)] of the arguments of the
    case return, the handler of either server returns a result envelope,
    whatever the two services do.  When one of them throws (an argument
    that is an object with a [toString] property of its own, or an array
    holding one), the handler throws that TypeError before any call is
    made. *)
Theorem handler_throws_only_on_conversion
    (StringToNumber : string -> number) (cfg : Config) (request : Request)
    (w : World) (tr : Trace) :
  (Convert.converts request = true ->
   (exists res, fst (handle StringToNumber cfg request w tr) = Ok res)
   /\ (exists res, fst (plain_handle StringToNumber cfg request w tr) = Ok res))
  /\ (Convert.converts request = false ->
      handle StringToNumber cfg request w tr = (Throw Convert.not_primitive, tr)
      /\ plain_handle StringToNumber cfg request w tr
         = (Throw Convert.not_primitive, tr)).
Proof.
  split; intros H; [|now apply handle_throws].
  destruct (handle_converts StringToNumber cfg request w tr H) as [-> ->].
  destruct (call_tool_total StringToNumber cfg request) as [T1 T2].
  split; [apply T1 | apply T2].
Qed.

(** ** No retries: how many calls an invocation can make *)

Lemma count_app (p : Event -> bool) (a b : Trace) :
  count p (a ++ b)%list = count p a + count p b.
Proof. unfold count. now rewrite filter_app, length_app. Qed.

Lemma at_most_ret {A} (p : Event -> bool) (a : A) : at_most p 0 (ret a).
Proof. intros w tr; exists []; cbn. now rewrite app_nil_r. Qed.

Lemma at_most_throw {A} (p : Event -> bool) (e : exn) : at_most p 0 (@throw A e).
Proof. intros w tr; exists []; cbn. now rewrite app_nil_r. Qed.

Lemma at_most_lift {A} (p : Event -> bool) (o : Outcome A) : at_most p 0 (lift o).
Proof. intros w tr; exists []; cbn. now rewrite app_nil_r. Qed.

Lemma at_most_emit_one {A} (p : Event -> bool) (ev : Event)
    (answer : World -> Trace -> Outcome A) :
  at_most p 1 (emit ev answer).
Proof.
  intros w tr; exists [ev]; cbn. split; [reflexivity|].
  unfold count; cbn. destruct (p ev); cbn; lia.
Qed.

Lemma at_most_emit_zero {A} (p : Event -> bool) (ev : Event)
    (answer : World -> Trace -> Outcome A) :
  p ev = false -> at_most p 0 (emit ev answer).
Proof.
  intros H w tr; exists [ev]; cbn. split; [reflexivity|].
  unfold count; cbn. rewrite H. cbn. lia.
Qed.

Lemma at_most_bind {A B} (p : Event -> bool) (n k : nat) (m : M A) (f : A -> M B) :
  at_most p n m -> (forall a, at_most p k (f a)) -> at_most p (n + k) (bind m f).
Proof.
  intros Hm Hf w tr. unfold bind.
  destruct (Hm w tr) as (d & E & L).
  destruct (m w tr) as [[a|e] tr1]; cbn in E; subst tr1.
  - destruct (Hf a w (tr ++ d)%list) as (d' & E' & L').
    exists (d ++ d')%list. rewrite E', app_assoc, count_app. split; [reflexivity | lia].
  - exists d. split; [reflexivity | lia].
Qed.

Lemma at_most_try_catch {A} (p : Event -> bool) (n k : nat) (m : M A) (h : exn -> M A) :
  at_most p n m -> (forall e, at_most p k (h e)) -> at_most p (n + k) (try_catch m h).
Proof.
  intros Hm Hh w tr. unfold try_catch.
  destruct (Hm w tr) as (d & E & L).
  destruct (m w tr) as [[a|e] tr1]; cbn in E; subst tr1.
  - exists d. split; [reflexivity | lia].
  - destruct (Hh e w (tr ++ d)%list) as (d' & E' & L').
    exists (d ++ d')%list. rewrite E', app_assoc, count_app. split; [reflexivity | lia].
Qed.

Lemma at_most_if {A} (p : Event -> bool) (n k : nat) (b : bool) (m1 m2 : M A) :
  at_most p n m1 -> at_most p k m2 -> at_most p (Nat.max n k) (if b then m1 else m2).
Proof.
  intros H1 H2 w tr. destruct b.
  - destruct (H1 w tr) as (d & E & L). exists d. split; [exact E | lia].
  - destruct (H2 w tr) as (d & E & L). exists d. split; [exact E | lia].
Qed.

Lemma at_most_weaken {A} (p : Event -> bool) (n k : nat) (m : M A) :
  at_most p n m -> n <= k -> at_most p k m.
Proof.
  intros H L w tr. destruct (H w tr) as (d & E & L'). exists d. split; [exact E | lia].
Qed.

(** A computation that only looks up and logs makes no axios call and no post. *)
Lemma lookups_at_most {A} (p : Event -> bool) (m : M A) :
  (forall ev, is_lookup ev = true -> p ev = false) ->
  emits (fun ev => is_lookup ev = true) m -> at_most p 0 m.
Proof.
  intros Hp Hm w tr. destruct (Hm w tr) as (d & E & F). exists d. split; [exact E|].
  clear E. unfold count. induction F as [|ev d Hev _ IH]; cbn; [lia|].
  rewrite (Hp ev Hev). exact IH.
Qed.

Lemma lookup_not_post (ev : Event) : is_lookup ev = true -> is_chat_post ev = false.
Proof. now destruct ev. Qed.

Lemma lookup_not_axios (ev : Event) : is_lookup ev = true -> is_axios ev = false.
Proof. now destruct ev. Qed.

Ltac count_step :=
  first [ apply at_most_ret | apply at_most_throw | apply at_most_lift
        | apply lookups_at_most;
          [ first [exact lookup_not_post | exact lookup_not_axios]
          | first [apply getChannelId_emits | apply find_devin_user_emits
                  | apply emits_console; reflexivity] ]
        | apply at_most_emit_zero; reflexivity
        | apply at_most_emit_one
        | eapply at_most_if
        | eapply at_most_bind; [|intro]
        | eapply at_most_try_catch; [|intro] ].

Ltac count_auto := eapply at_most_weaken; [repeat count_step | cbn; lia].

Lemma sendSlackMessage_posts_once (c : value) (txt : string) (ts : value) :
  at_most is_chat_post 1 (sendSlackMessage c txt ts).
Proof. unfold sendSlackMessage, chatPostMessage. count_auto. Qed.

Lemma sendSlackMessage_no_axios (c : value) (txt : string) (ts : value) :
  at_most is_axios 0 (sendSlackMessage c txt ts).
Proof. unfold sendSlackMessage, chatPostMessage. count_auto. Qed.

(** X2.  No retries and no fan-out: one invocation of the Slack-integrated
    handler makes at most two axios calls and at most one
    [chat.postMessage] call, in every world and for every request. *)
Theorem call_tool_call_budget
    (StringToNumber : string -> number) (cfg : Config) (request : Request) :
  at_most is_axios 2 (call_tool StringToNumber cfg request)
  /\ at_most is_chat_post 1 (call_tool StringToNumber cfg request).
Proof.
  split.
  - unfold call_tool, create_devin_session, get_devin_session,
      send_message_to_session, list_devin_sessions, get_organization_info,
      fetch_messages, axiosPost, axiosGet.
    eapply at_most_weaken;
      [repeat first [apply sendSlackMessage_no_axios | count_step] | cbn; lia].
  - unfold call_tool, create_devin_session, get_devin_session,
      send_message_to_session, list_devin_sessions, get_organization_info,
      fetch_messages, axiosPost, axiosGet.
    eapply at_most_weaken;
      [repeat first [apply sendSlackMessage_posts_once | count_step] | cbn; lia].
Qed.

(** X3.  The server without Slack makes at most one call per invocation,
    an axios call: it never calls the chat service and never logs. *)
Theorem plain_call_tool_single_call
    (StringToNumber : string -> number) (cfg : Config) (request : Request)
    (w : World) (tr : Trace) :
  exists d,
    snd (Plain.call_tool StringToNumber cfg request w tr) = (tr ++ d)%list
    /\ List.length d <= 1
    /\ Forall (fun ev => is_axios ev = true) d.
Proof.
  assert (H : emits (fun ev => is_axios ev = true)
                    (Plain.call_tool StringToNumber cfg request)
              /\ at_most (fun _ => true) 1 (Plain.call_tool StringToNumber cfg request)).
  { unfold Plain.call_tool, Plain.create_devin_session, Plain.get_devin_session,
      Plain.send_message_to_session, Plain.list_devin_sessions, get_organization_info,
      axiosPost, axiosGet.
    split; [repeat trace_step|].
    eapply at_most_weaken; [repeat count_step | cbn; lia]. }
  destruct H as [He Hc].
  destruct (He w tr) as (d & E & F). destruct (Hc w tr) as (d' & E' & L).
  rewrite E in E'. apply app_inv_head in E'. subst d'.
  exists d. split; [exact E|]. split; [|exact F].
  unfold count in L. rewrite forallb_filter_id in L; [exact L|].
  now apply forallb_forall.
Qed.

(** ** Resolving a channel by name *)

Lemma find_found (p : value -> Outcome bool) (l : list value) (x : value) :
  find p l = Ok x -> Js.truthy x = true -> In x l /\ p x = Ok true.
Proof.
  induction l as [|y l IH]; cbn; intros H T.
  - injection H as <-. discriminate.
  - destruct (p y) as [[|]|e] eqn:E; cbn in H; [|auto|discriminate].
    + injection H as <-. auto.
    + destruct (IH H T); auto.
Qed.

Lemma find_none (p : value -> Outcome bool) (l : list value) :
  Forall (fun y => p y = Ok false) l -> find p l = Ok VUndefined.
Proof. induction 1 as [|y l H _ IH]; cbn; [reflexivity|]. now rewrite H. Qed.

Lemma app_cons_neq {A} (tr d : list A) (x : A) : (tr ++ x :: d)%list <> tr.
Proof.
  intros H. apply (f_equal (@List.length A)) in H.
  rewrite length_app in H. cbn in H. lia.
Qed.

Lemma channel_name_hash (s : string) :
  Str.startsWith "#" s = false -> channel_name ("#" ++ s) = channel_name s.
Proof. intros H. unfold channel_name. now rewrite H. Qed.

Section ChannelByName.

Variable s : string.
Hypothesis not_canonical : Spec.canonical_channel_id s = false.

Variable w : World.
Variable tr : Trace.

Let tr1 := (tr ++ [ConversationsList])%list.
Let failed (e : exn) : Outcome value * Trace :=
  (Throw e,
   (tr1 ++ [ConsoleError ("Error resolving channel name to ID: " ++ Js.error_to_string e)
                         None])%list).
Let not_found : exn := Error "Error" ("Channel not found: " ++ s).
Let named (ch : value) : Outcome bool :=
  n <-! Js.member ch "name" ;; Ok (Js.is_string (channel_name s) n).

(** [getChannelId] on a name, step by step. *)
Lemma getChannelId_by_name :
  getChannelId (VStr s) w tr =
  match conversations_list w tr with
  | Throw e => failed e
  | Ok result =>
      match Js.get result "channels" with
      | VArr chs =>
          match find named chs with
          | Throw e => failed e
          | Ok channel =>
              if Js.truthy channel then
                match Js.member channel "id" with
                | Throw e => failed e
                | Ok id => if Js.truthy id then (Ok id, tr1) else failed not_found
                end
              else failed not_found
          end
      | _ => failed not_found
      end
  end.
Proof.
  unfold getChannelId. cbn [Js.ToString]. rewrite test_channel_id, not_canonical.
  unfold try_catch, bind, conversationsList, emit, lift, ret, throw, consoleError.
  fold tr1. fold (channel_name s). fold named.
  destruct (conversations_list w tr) as [result|e]; [|reflexivity].
  destruct (Js.get result "channels") as [| |b|n|t|chs|o]; try reflexivity.
  destruct (find named chs) as [channel|e]; [|reflexivity].
  destruct (Js.truthy channel); [|reflexivity].
  destruct (Js.member channel "id") as [id|e]; [|reflexivity].
  now destruct (Js.truthy id).
Qed.

(** X4.  An input that is not a canonical identifier is always looked up:
    the first thing [getChannelId] does with it is one [conversations.list]
    call.  This includes identifiers that are too short ([C] and seven
    characters) or in lower case. *)
Theorem getChannelId_name_is_looked_up :
  exists o d, getChannelId (VStr s) w tr = (o, (tr ++ ConversationsList :: d)%list)
              /\ count is_slack d = 0.
Proof.
  rewrite getChannelId_by_name. unfold failed, tr1.
  destruct (conversations_list w tr) as [result|e].
  2:{ eexists; eexists; split; [now rewrite <- app_assoc | reflexivity]. }
  destruct (Js.get result "channels") as [| |b|n|t|chs|o];
    try (eexists; eexists; split; [now rewrite <- app_assoc | reflexivity]).
  destruct (find named chs) as [channel|e];
    [|eexists; eexists; split; [now rewrite <- app_assoc | reflexivity]].
  destruct (Js.truthy channel);
    [|eexists; eexists; split; [now rewrite <- app_assoc | reflexivity]].
  destruct (Js.member channel "id") as [id|e];
    [|eexists; eexists; split; [now rewrite <- app_assoc | reflexivity]].
  destruct (Js.truthy id);
    eexists; eexists;
    (split; [first [reflexivity | now rewrite <- app_assoc] | reflexivity]).
Qed.

(** X5.  A failure of the channel listing is not swallowed: [getChannelId]
    logs it and throws the same error, and [sendSlackMessage] logs it again,
    throws it on and posts nothing. *)
Theorem listing_failure_propagates (e : exn) (txt : string) (ts : value) :
  conversations_list w tr = Throw e ->
  getChannelId (VStr s) w tr = failed e
  /\ sendSlackMessage (VStr s) txt ts w tr
     = (Throw e,
        (snd (failed e)
           ++ [ConsoleError "Error sending message to Slack:" (Some e)])%list).
Proof.
  intros H.
  assert (E : getChannelId (VStr s) w tr = failed e)
    by now rewrite getChannelId_by_name, H.
  split; [exact E|]. now rewrite sendSlackMessage_run, E.
Qed.

(** X6.  When the listing has no channel of that name (the leading [#] of
    the input set aside), or has no channel array at all, [getChannelId]
    throws [Channel not found: ] followed by the input as it was given. *)
Theorem channel_not_found (result : object) :
  conversations_list w tr = Ok result ->
  match Js.get result "channels" with
  | VArr chs =>
      Forall (fun ch => exists o, ch = VObj o
                                  /\ Js.get o "name" <> VStr (channel_name s)) chs
  | _ => True
  end ->
  getChannelId (VStr s) w tr = failed not_found.
Proof.
  intros H Hchs. rewrite getChannelId_by_name, H.
  destruct (Js.get result "channels") as [| |b|n|t|chs|o]; try reflexivity.
  rewrite find_none; [reflexivity|].
  revert Hchs. apply Forall_impl. intros ch (o' & -> & Hn).
  unfold named. cbn [Js.member obind]. f_equal.
  destruct (Js.get o' "name") as [| |b|n|t|l|o'']; try reflexivity.
  cbn. destruct (String.eqb_spec t (channel_name s)); [congruence | reflexivity].
Qed.

(** X7.  An id that [getChannelId] resolves from a name comes from the
    listing: it is the (truthy) [id] of a listed channel whose [name] is the
    input without its leading [#], and exactly one listing call was made. *)
Theorem resolved_channel_is_listed (id : value) (tr' : Trace) :
  getChannelId (VStr s) w tr = (Ok id, tr') ->
  exists result chs ch,
    conversations_list w tr = Ok result
    /\ Js.get result "channels" = VArr chs
    /\ In ch chs
    /\ Js.member ch "name" = Ok (VStr (channel_name s))
    /\ Js.member ch "id" = Ok id
    /\ Js.truthy id = true
    /\ tr' = (tr ++ [ConversationsList])%list.
Proof.
  rewrite getChannelId_by_name. unfold failed.
  destruct (conversations_list w tr) as [result|e]; [|discriminate].
  destruct (Js.get result "channels") as [| |b|n|t|chs|o] eqn:Ec; try discriminate.
  destruct (find named chs) as [channel|e] eqn:Ef; [|discriminate].
  destruct (Js.truthy channel) eqn:Tc; [|discriminate].
  destruct (Js.member channel "id") as [id'|e] eqn:Ei; [|discriminate].
  destruct (Js.truthy id') eqn:Ti; [|discriminate].
  intros H. injection H as <- <-.
  destruct (find_found _ _ _ Ef Tc) as [Hin Hp].
  exists result, chs, channel. repeat split; auto.
  unfold named in Hp. destruct (Js.member channel "name") as [n|e]; [|discriminate].
  cbn in Hp. injection Hp as Hp. unfold Js.is_string in Hp.
  destruct n; try discriminate. apply String.eqb_eq in Hp. now subst.
Qed.

End ChannelByName.

(** X8.  The leading [#] is optional: a name and the same name with [#] in
    front resolve alike, to the same id with the same calls. *)
Theorem hash_prefix_is_optional
    (s : string) (w : World) (tr tr' : Trace) (id : value) :
  Spec.canonical_channel_id s = false ->
  Str.startsWith "#" s = false ->
  getChannelId (VStr s) w tr = (Ok id, tr') ->
  getChannelId (VStr ("#" ++ s)) w tr = (Ok id, tr').
Proof.
  intros Hc Hh. rewrite (getChannelId_by_name s Hc w tr).
  rewrite (getChannelId_by_name ("#" ++ s) eq_refl w tr), (channel_name_hash s Hh).
  destruct (conversations_list w tr) as [result|e]; [|discriminate].
  destruct (Js.get result "channels") as [| |b|n|t|chs|o]; try discriminate.
  destruct (find _ chs) as [channel|e]; [|discriminate].
  destruct (Js.truthy channel); [|discriminate].
  destruct (Js.member channel "id") as [id'|e]; [|discriminate].
  now destruct (Js.truthy id').
Qed.

(** ** Posting to Slack *)

(** X9.  [sendSlackMessage] posts exactly when the channel resolves: then it
    makes one [chat.postMessage] call, to the resolved id, with the text and
    thread reference it was given and [as_user] set, and hands back what
    Slack answered (or throws what Slack threw); when the channel does not
    resolve it posts nothing and throws the resolution error. *)
Theorem sendSlackMessage_posts_when_resolved
    (c : value) (txt : string) (ts : value) (w : World) (tr : Trace) :
  exists o tr',
    sendSlackMessage c txt ts w tr = (o, tr')
    /\ match getChannelId c w tr with
       | (Ok id, tr1) =>
           filter is_chat_post tr'
           = (filter is_chat_post tr ++ [ChatPostMessage id txt ts true])%list
           /\ o = chat_postMessage w tr1 id txt ts true
       | (Throw e, _) =>
           filter is_chat_post tr' = filter is_chat_post tr /\ o = Throw e
       end.
Proof.
  rewrite sendSlackMessage_run.
  destruct (getChannelId_run c w tr) as (o & d & E & F). rewrite E.
  destruct (lookups_no_post d F) as [C _].
  destruct o as [id|e].
  - destruct (chat_postMessage w (tr ++ d)%list id txt ts true) as [r|e];
      eexists; eexists; (split; [reflexivity|]); (split; [|reflexivity]);
      rewrite !filter_app, C; cbn; now rewrite app_nil_r.
  - eexists; eexists. split; [reflexivity|]. split; [|reflexivity].
    rewrite !filter_app, C. cbn. now rewrite !app_nil_r.
Qed.

(** ** Finding the Devin user *)

Lemma is_string_true (s : string) (v : value) :
  Js.is_string s v = true -> v = VStr s.
Proof.
  destruct v; cbn; try discriminate. intros H. apply String.eqb_eq in H. now subst.
Qed.

Lemma find_devin_user_by_list (w : World) (tr : Trace) :
  find_devin_user w tr =
  match users_list w tr with
  | Throw e =>
      (Ok (VStr ""),
       (tr ++ [UsersList; ConsoleError "Error finding Devin user:" (Some e)])%list)
  | Ok result =>
      match Js.get result "members" with
      | VArr members =>
          match find is_devin_user members with
          | Throw e =>
              (Ok (VStr ""),
               (tr ++ [UsersList;
                       ConsoleError "Error finding Devin user:" (Some e)])%list)
          | Ok devinUser =>
              (Ok (if Js.truthy devinUser && Js.truthy (Js.opt_member devinUser "id")
                   then Js.opt_member devinUser "id" else VStr ""),
               (tr ++ [UsersList])%list)
          end
      | _ => (Ok (VStr ""), (tr ++ [UsersList])%list)
      end
  end.
Proof.
  unfold find_devin_user, try_catch, bind, usersList, emit, lift, ret, consoleError.
  destruct (users_list w tr) as [result|e]; [|now rewrite <- app_assoc].
  destruct (Js.get result "members") as [| |b|n|t|members|o]; try reflexivity.
  destruct (find is_devin_user members) as [u|e]; [|now rewrite <- app_assoc].
  destruct u as [| |b|n|t|l|o]; cbn; try reflexivity.
  - now destruct b.
  - now destruct (Js.number_truthy n).
  - now destruct (negb (Str.is_empty t)).
Qed.

(** X10.  A user id found by the lookup belongs to a listed member that is
    called [devin], or whose real name or profile display name is [Devin];
    only one [users.list] call was made for it. *)
Theorem devin_user_is_member (w : World) (tr tr' : Trace) (uid : value) :
  find_devin_user w tr = (Ok uid, tr') ->
  Js.truthy uid = true ->
  exists result members u,
    users_list w tr = Ok result
    /\ Js.get result "members" = VArr members
    /\ In u members
    /\ (Js.opt_member u "name" = VStr "devin"
        \/ Js.opt_member u "real_name" = VStr "Devin"
        \/ Js.opt_member (Js.opt_member u "profile") "display_name" = VStr "Devin")
    /\ Js.opt_member u "id" = uid
    /\ tr' = (tr ++ [UsersList])%list.
Proof.
  rewrite find_devin_user_by_list.
  destruct (users_list w tr) as [result|e].
  2:{ intros H; injection H as <- _. discriminate. }
  destruct (Js.get result "members") as [| |b|n|t|members|o] eqn:Em;
    try (intros H; injection H as <- _; discriminate).
  destruct (find is_devin_user members) as [u|e] eqn:Ef.
  2:{ intros H; injection H as <- _. discriminate. }
  destruct (Js.truthy u) eqn:Tu; cbn [andb].
  2:{ intros H; injection H as <- _. discriminate. }
  destruct (Js.truthy (Js.opt_member u "id")) eqn:Ti.
  2:{ intros H; injection H as <- _. discriminate. }
  intros H _. injection H as <- <-.
  destruct (find_found _ _ _ Ef Tu) as [Hin Hp].
  exists result, members, u. repeat split; auto.
  unfold is_devin_user in Hp.
  destruct u as [| |b|n|t|l|o]; cbn in Hp; try discriminate; injection Hp as Hp.
  cbn [Js.opt_member].
  apply Bool.orb_true_iff in Hp. destruct Hp as [Hp|Hp].
  - apply Bool.orb_true_iff in Hp. destruct Hp as [Hp|Hp].
    + left. now apply is_string_true.
    + right; left. now apply is_string_true.
  - right; right. now apply is_string_true.
Qed.

(** ** create_devin_session, path by path *)

Section CreatePaths.

Variable StringToNumber : string -> number.
Variable cfg : Config.
Variable args : option object.

Let prompt := Js.ToString (arg args "prompt").
Let slack_channel :=
  Js.or (arg args "slack_channel") (VStr (SLACK_DEFAULT_CHANNEL cfg)).
Let url := BASE_URL cfg ++ "/session".
Let body :=
  VObj (create_request_body prompt (Js.truthy (arg args "idempotent"))
          (arg args "machine_snapshot_id")
          (number_or_undefined StringToNumber (arg args "max_acu"))).
Let post := AxiosPost url body (getHeaders cfg).
Let request := mkRequest "create_devin_session" args.

Variable w : World.
Variable tr0 : Trace.
Hypothesis prompt_given : Str.is_empty prompt = false.

(** X11.  When the create-session call throws, the handler stops there: the
    result is the error envelope of the thrown error (status and body of an
    upstream HTTP error), and neither the member list nor the channel list
    is read and nothing is posted. *)
Theorem create_failure_stops (e : exn) :
  axios_post w tr0 url body (getHeaders cfg) = Throw e ->
  call_tool StringToNumber cfg request w tr0
  = (Ok (catch_result "Error creating session" e), (tr0 ++ [post])%list).
Proof.
  intros H. pose proof (create_run StringToNumber cfg args w tr0 prompt_given) as R.
  cbv zeta in R. fold prompt url body post request in R. now rewrite H in R.
Qed.

(** X12.  The mention falls back to plain text: when the member list cannot
    be read, the failure is logged and the message posted to the resolved
    channel is [@Devin ] followed by the prompt. *)
Theorem mention_falls_back (resp : HttpResponse) (e : exn) (id : value) (tr2 : Trace) :
  axios_post w tr0 url body (getHeaders cfg) = Ok resp ->
  users_list w (tr0 ++ [post])%list = Throw e ->
  getChannelId slack_channel w
    (tr0 ++ [post; UsersList; ConsoleError "Error finding Devin user:" (Some e)])%list
    = (Ok id, tr2) ->
  exists out d,
    call_tool StringToNumber cfg request w tr0
    = (out, (tr2 ++ ChatPostMessage id ("@Devin " ++ prompt) VUndefined true :: d)%list)
    /\ count is_chat_post d = 0.
Proof.
  intros Hpost Hu Hc.
  pose proof (create_run StringToNumber cfg args w tr0 prompt_given) as R.
  cbv zeta in R. fold prompt url body post request slack_channel in R.
  rewrite Hpost, find_devin_user_by_list, Hu in R.
  rewrite sendSlackMessage_run in R.
  replace ((tr0 ++ [post]) ++ [UsersList; ConsoleError "Error finding Devin user:" (Some e)])%list
    with (tr0 ++ [post; UsersList; ConsoleError "Error finding Devin user:" (Some e)])%list
    in R by now rewrite <- app_assoc.
  rewrite Hc in R. change (slackMessage (VStr "") prompt) with ("@Devin " ++ prompt) in R.
  destruct (chat_postMessage w tr2 id ("@Devin " ++ prompt) VUndefined true) as [sr|e'].
  - eexists; exists []. split; [exact R | reflexivity].
  - eexists; eexists. split; [exact R | reflexivity].
Qed.



End CreatePaths.

(** ** send_message_to_session, path by path *)

Section SendPaths.

Variable StringToNumber : string -> number.
Variable cfg : Config.
Variable args : option object.

Let session_id := Js.ToString (arg args "session_id").
Let message := Js.ToString (arg args "message").
Let slack_channel := arg args "slack_channel".
Let slack_thread_ts := arg args "slack_thread_ts".
Let url := BASE_URL cfg ++ "/session/" ++ normalizeSessionId session_id ++ "/message".
Let body := VObj [("message", VStr message)].
Let post := AxiosPost url body (getHeaders cfg).
Let request := mkRequest "send_message_to_session" args.
Let relay := Js.truthy slack_channel && Js.truthy slack_thread_ts.

Variable w : World.
Variable tr0 : Trace.
Hypothesis session_given : Str.is_empty session_id = false.
Hypothesis message_given : Str.is_empty message = false.

Lemma send_run :
  call_tool StringToNumber cfg request w tr0 =
  match axios_post w tr0 url body (getHeaders cfg) with
  | Throw e => (Ok (catch_result "Error sending message" e), (tr0 ++ [post])%list)
  | Ok resp =>
      if (200 <=? status resp)%Z && (status resp <? 300)%Z then
        if relay then
          match sendSlackMessage slack_channel message slack_thread_ts w
                  (tr0 ++ [post])%list with
          | (Ok r, tr2) =>
              (Ok (ok_result
                     (JSON.stringify2
                        (send_success_payload (data resp) slack_channel
                           slack_thread_ts (Some r)))), tr2)
          | (Throw e, tr2) => (Ok (catch_result "Error sending message" e), tr2)
          end
        else
          (Ok (ok_result
                 (JSON.stringify2
                    (send_success_payload (data resp) slack_channel
                       slack_thread_ts None))), (tr0 ++ [post])%list)
      else
        (Ok {| text := JSON.stringify2 (send_failure_payload resp); isError := true |},
         (tr0 ++ [post])%list)
  end.
Proof.
  unfold request. rewrite call_tool_send. unfold send_message_to_session.
  fold session_id message slack_channel slack_thread_ts.
  rewrite session_given, message_given.
  unfold try_catch, bind, axiosPost, emit, ret. fold url body post.
  destruct (axios_post w tr0 url body (getHeaders cfg)) as [resp|e]; [|reflexivity].
  destruct ((200 <=? status resp)%Z && (status resp <? 300)%Z); cbn [andb];
    [|reflexivity].
  fold relay. destruct relay; [|reflexivity].
  now destruct (sendSlackMessage slack_channel message slack_thread_ts w
                  (tr0 ++ [post])%list) as [[r|e] tr2].
Qed.

(** X15.  The relay into Slack is attempted only after the post to the agent
    has resolved with a 2xx status and only when both a channel and a
    thread reference were given.  When the post throws (as the HTTP client
    does for every answer outside 2xx), and when it resolves but the
    channel or the thread is missing, the post to the agent is the only
    call of the invocation. *)
Theorem relay_only_after_success :
  (forall e,
      axios_post w tr0 url body (getHeaders cfg) = Throw e ->
      call_tool StringToNumber cfg request w tr0
      = (Ok (catch_result "Error sending message" e), (tr0 ++ [post])%list))
  /\ (forall resp,
         axios_post w tr0 url body (getHeaders cfg) = Ok resp ->
         (200 <= status resp < 300)%Z ->
         relay = false ->
         call_tool StringToNumber cfg request w tr0
         = (Ok (ok_result
                  (JSON.stringify2
                     (VObj [("status", VStr "Message sent successfully");
                            ("success", VBool true);
                            ("response_data", Js.or (data resp) (VObj []));
                            ("slack_response", VNull)]))),
            (tr0 ++ [post])%list)).
Proof.
  split.
  - intros e H. now rewrite send_run, H.
  - intros resp H [Hlo Hhi] Hr. rewrite send_run, H, Hr.
    replace ((200 <=? status resp)%Z && (status resp <? 300)%Z) with true; [reflexivity|].
    symmetry. apply andb_true_intro. split; [now apply Z.leb_le | now apply Z.ltb_lt].
Qed.

(** X16.  The relay carries the message itself: when the agent answers 2xx,
    a channel and a thread reference were given, the channel resolves and
    Slack accepts the post, exactly the message text is posted to the
    resolved channel as a reply in the given thread, and the result reports
    the channel as requested, the thread and the timestamp Slack assigned. *)
Theorem relay_posts_the_message
    (resp : HttpResponse) (id : value) (tr2 : Trace) (sr : object) :
  axios_post w tr0 url body (getHeaders cfg) = Ok resp ->
  (200 <= status resp < 300)%Z ->
  relay = true ->
  getChannelId slack_channel w (tr0 ++ [post])%list = (Ok id, tr2) ->
  chat_postMessage w tr2 id message slack_thread_ts true = Ok sr ->
  call_tool StringToNumber cfg request w tr0
  = (Ok (ok_result
           (JSON.stringify2
              (VObj [("status", VStr "Message sent successfully");
                     ("success", VBool true);
                     ("response_data", Js.or (data resp) (VObj []));
                     ("slack_response",
                      VObj [("channel", slack_channel);
                            ("thread_ts", slack_thread_ts);
                            ("message_ts", Js.get sr "ts")])]))),
     (tr2 ++ [ChatPostMessage id message slack_thread_ts true])%list).
Proof.
  intros H [Hlo Hhi] Hr Hc Hchat. rewrite send_run, H, Hr.
  replace ((200 <=? status resp)%Z && (status resp <? 300)%Z) with true.
  2:{ symmetry. apply andb_true_intro.
      split; [now apply Z.leb_le | now apply Z.ltb_lt]. }
  now rewrite sendSlackMessage_run, Hc, Hchat.
Qed.

End SendPaths.

(** ** get_devin_session, path by path *)

Lemma well_typed_with_messages (o : object) (m : value) :
  session_id_well_typed (VObj o) ->
  session_id_well_typed (VObj (Js.set "messages" m o)).
Proof.
  unfold session_id_well_typed. cbn [Js.opt_member].
  now rewrite get_set_other by discriminate.
Qed.

Section GetPaths.

Variable StringToNumber : string -> number.
Variable cfg : Config.
Variable args : option object.

Let session_id := Js.ToString (arg args "session_id").
Let url := BASE_URL cfg ++ "/session/" ++ normalizeSessionId session_id.
Let history_url :=
  BASE_URL cfg ++ "/session/" ++ normalizeSessionId session_id ++ "/message".
Let primary := AxiosGet url [] (getHeaders cfg).
Let secondary := AxiosGet history_url [] (getHeaders cfg).
Let request := mkRequest "get_devin_session" args.

Variable w : World.
Variable tr0 : Trace.
Hypothesis session_given : Str.is_empty session_id = false.

(** X17.  When the get-session call throws, the message history is not
    asked for, whatever [fetch_slack_info] says: the result is the error
    envelope of the thrown error and the query is the only call. *)
Theorem get_failure_skips_history (e : exn) :
  axios_get w tr0 url [] (getHeaders cfg) = Throw e ->
  call_tool StringToNumber cfg request w tr0
  = (Ok (catch_result "Error getting session" e), (tr0 ++ [primary])%list).
Proof.
  intros H. unfold request. rewrite call_tool_get. unfold get_devin_session.
  fold session_id. rewrite session_given.
  unfold try_catch at 1. unfold bind at 1. unfold axiosGet at 1. unfold emit at 1.
  fold url. now rewrite H.
Qed.

(** X18.  With [fetch_slack_info] set and both calls answered, the payload
    is the session with the [messages] of the history on it: [messages] is
    what the history call returned (a [messages] field of the session itself
    is overwritten) and every field of the session other than [messages]
    and the two session ids is as the agent sent it. *)
Theorem history_is_merged
    (resp hist : HttpResponse) (o h : object) :
  Js.truthy (arg args "fetch_slack_info") = true ->
  axios_get w tr0 url [] (getHeaders cfg) = Ok resp ->
  data resp = VObj o ->
  session_id_well_typed (VObj o) ->
  axios_get w (tr0 ++ [primary])%list history_url [] (getHeaders cfg) = Ok hist ->
  data hist = VObj h ->
  exists payload,
    call_tool StringToNumber cfg request w tr0
    = (Ok (ok_result (JSON.stringify2 payload)),
       (tr0 ++ [primary; secondary])%list)
    /\ Js.opt_member payload "messages" = Js.get h "messages"
    /\ (forall k, k <> "messages" -> k <> "session_id" -> k <> "original_session_id" ->
                  Js.opt_member payload k = Js.get o k).
Proof.
  intros Hf Hget Hd Hty Hhist Hh.
  pose proof (well_typed_with_messages o (Js.get h "messages") Hty) as Hty'.
  destruct (attach_session_ids_typed _ Hty') as (payload & Ea & Hsame).
  exists payload. split; [|split].
  - unfold request. rewrite call_tool_get. unfold get_devin_session.
    fold session_id. rewrite session_given, Hf.
    unfold try_catch at 1. unfold bind at 1. unfold axiosGet at 1. unfold emit at 1.
    fold url. rewrite Hget, Hd.
    unfold bind at 1. unfold fetch_messages, try_catch, bind, axiosGet, emit.
    fold session_id history_url primary. rewrite Hhist, Hh.
    unfold lift, ret. cbn [Js.member Js.spread]. rewrite Ea.
    unfold secondary. now rewrite <- app_assoc.
  - rewrite (Hsame "messages") by discriminate. cbn [Js.opt_member].
    apply get_set_same.
  - intros k N1 N2 N3. rewrite (Hsame k N2 N3). cbn [Js.opt_member].
    apply get_set_other. congruence.
Qed.

End GetPaths.

(** ** list_devin_sessions *)

Lemma mapM_throws (f : value -> Outcome value) (l : list value) (x : value) (e : exn) :
  In x l -> f x = Throw e -> exists e', mapM f l = Throw e'.
Proof.
  induction l as [|y l IH]; [contradiction|].
  intros [->|Hin] Hx; cbn.
  - rewrite Hx. now exists e.
  - destruct (f y) as [y'|e1]; cbn; [|now exists e1].
    destruct (IH Hin Hx) as (e' & ->). now exists e'.
Qed.

Lemma lookup_indexed_name (k : string) (i : nat) (l : list value) :
  Str.forallb (fun c => Nat.leb 48 (nat_of_ascii c) && Nat.leb (nat_of_ascii c) 57) k
    = false ->
  Js.lookup k (Js.indexed i l) = None.
Proof.
  intros Hk. revert i. induction l as [|v l IH]; intros i; cbn; [reflexivity|].
  rewrite IH. destruct (String.eqb_spec k (NilZero.string_of_uint (Nat.to_uint i)));
    [|reflexivity].
  exfalso. subst k. revert Hk. generalize (Nat.to_uint i). intros d.
  assert (H : forall d, Str.forallb
                (fun c => Nat.leb 48 (nat_of_ascii c) && Nat.leb (nat_of_ascii c) 57)
                (NilEmpty.string_of_uint d) = true)
    by (induction d0; cbn; auto).
  destruct d; cbn; try (rewrite H); discriminate.
Qed.

Section ListPaths.

Variable StringToNumber : string -> number.
Variable cfg : Config.
Variable args : option object.

Let url := BASE_URL cfg ++ "/session".
Let params :=
  list_params (number_or_undefined StringToNumber (arg args "limit"))
              (number_or_undefined StringToNumber (arg args "offset")).
Let get := AxiosGet url params (getHeaders cfg).
Let request := mkRequest "list_devin_sessions" args.

Variable w : World.
Variable tr0 : Trace.

Lemma list_run :
  call_tool StringToNumber cfg request w tr0 =
  (Ok match axios_get w tr0 url params (getHeaders cfg) with
      | Throw e => catch_result "Error listing sessions" e
      | Ok resp =>
          match normalize_sessions (data resp) with
          | Ok nd => ok_result (JSON.stringify2 (VObj nd))
          | Throw e => catch_result "Error listing sessions" e
          end
      end,
   (tr0 ++ [get])%list).
Proof.
  unfold request. rewrite call_tool_list. unfold list_devin_sessions.
  unfold try_catch, bind, axiosGet, emit, lift, ret. fold url params get.
  destruct (axios_get w tr0 url params (getHeaders cfg)) as [resp|e]; [|reflexivity].
  now destruct (normalize_sessions (data resp)).
Qed.

(** The query parameter sent for an argument: the number, unless it is
    missing, not a number, or zero. *)
Let sent (v : value) : option value :=
  match ToNumber StringToNumber v with
  | NaN => None
  | Int z => if Z.eqb z 0 then None else Some (VNum (Int z))
  end.

(** X19.  When [Number(limit)] and [Number(offset)] return, listing makes
    exactly one call, a GET of the collection, in every world.  Its query
    carries [limit] and [offset] as numbers when the arguments convert to a
    number other than zero; an argument that is missing, not a number, or
    [0] is left out of the query (so [offset: 0] and [limit: 0] are never
    sent).  No other parameter is sent.  When one of the two conversions
    throws, the handler throws and no call is made. *)
Theorem list_issues_one_query :
  (Convert.converts request = true ->
   snd (handle StringToNumber cfg request w tr0) = (tr0 ++ [get])%list
   /\ Js.lookup "limit" params = sent (arg args "limit")
   /\ Js.lookup "offset" params = sent (arg args "offset")
   /\ (forall k, k <> "limit" -> k <> "offset" -> Js.lookup k params = None))
  /\ (Convert.converts request = false ->
      handle StringToNumber cfg request w tr0 = (Throw Convert.not_primitive, tr0)).
Proof.
  split; intros Hc; [|now apply handle_throws].
  split.
  { rewrite (proj1 (handle_converts StringToNumber cfg request w tr0 Hc)).
    now rewrite list_run. }
  unfold params, sent, list_params, number_or_undefined.
  destruct (ToNumber StringToNumber (arg args "limit")) as [|zl];
    destruct (ToNumber StringToNumber (arg args "offset")) as [|zo]; cbn;
    try destruct (Z.eqb zl 0); try destruct (Z.eqb zo 0); cbn;
    (split; [reflexivity|]); (split; [reflexivity|]);
    intros k N1 N2;
    repeat match goal with
           | |- context [String.eqb k ?s] =>
               destruct (String.eqb_spec k s); [congruence|]
           end; reflexivity.
Qed.

(** X20.  A response that is a bare array is not treated as a list of
    sessions: it comes back as an object keyed by position, its entries
    untouched (no id is normalized). *)
Theorem list_bare_array (resp : HttpResponse) (l : list value) :
  axios_get w tr0 url params (getHeaders cfg) = Ok resp ->
  data resp = VArr l ->
  call_tool StringToNumber cfg request w tr0
  = (Ok (ok_result (JSON.stringify2 (VObj (Js.indexed 0 l)))), (tr0 ++ [get])%list).
Proof.
  intros H Hd. rewrite list_run, H, Hd. unfold normalize_sessions.
  cbn [Js.spread]. unfold Js.get.
  now rewrite (lookup_indexed_name "sessions" 0 l eq_refl).
Qed.

(** X21.  One bad entry fails the whole listing: when [sessions] contains
    [null], or an entry whose [session_id] is a number, the result is an
    error envelope and no session of the list is returned. *)
Theorem list_bad_entry_fails (resp : HttpResponse) (l : list value) (bad : value) :
  axios_get w tr0 url params (getHeaders cfg) = Ok resp ->
  Js.get (Js.spread (data resp)) "sessions" = VArr l ->
  In bad l ->
  (bad = VNull
   \/ exists o n, bad = VObj o /\ Js.get o "session_id" = VNum n
                  /\ Js.number_truthy n = true) ->
  exists e,
    call_tool StringToNumber cfg request w tr0
    = (Ok (catch_result "Error listing sessions" e), (tr0 ++ [get])%list)
    /\ isError (catch_result "Error listing sessions" e) = true.
Proof.
  intros H Hs Hin Hbad.
  assert (Hthrow : exists e, normalize_entry bad = Throw e).
  { destruct Hbad as [->|(o & n & -> & Hn & Ht)]; [eexists; reflexivity|].
    unfold normalize_entry. cbn [Js.member obind]. rewrite Hn. cbn [Js.truthy].
    rewrite Ht. eexists; reflexivity. }
  destruct Hthrow as (e0 & He0).
  destruct (mapM_throws normalize_entry l bad e0 Hin He0) as (e & He).
  exists e. split; [|apply catch_result_isError].
  rewrite list_run, H. unfold normalize_sessions. now rewrite Hs, He.
Qed.

End ListPaths.

(** ** Session ids with and without the prefix *)

Lemma arg_set_same (k : string) (v : value) (o : object) :
  arg (Some (Js.set k v o)) k = v.
Proof. apply get_set_same. Qed.

Lemma arg_set_other (k k' : string) (v : value) (o : object) :
  k <> k' -> arg (Some (Js.set k v o)) k' = arg (Some o) k'.
Proof. apply get_set_other. Qed.

(** X22.  The prefix is optional on the way in: for an id [x] that is not
    empty and does not itself start with [devin-], asking for [devin-x] and
    asking for [x] are the same invocation, call for call and result for
    result, for [get_devin_session] and for [send_message_to_session]. *)
Theorem session_prefix_is_optional
    (StringToNumber : string -> number) (cfg : Config)
    (o : object) (x : string) (w : World) (tr : Trace) :
  Str.is_empty x = false ->
  Str.startsWith "devin-" x = false ->
  let prefixed := Some (Js.set "session_id" (VStr ("devin-" ++ x)) o) in
  let bare := Some (Js.set "session_id" (VStr x) o) in
  call_tool StringToNumber cfg (mkRequest "get_devin_session" prefixed) w tr
  = call_tool StringToNumber cfg (mkRequest "get_devin_session" bare) w tr
  /\ call_tool StringToNumber cfg (mkRequest "send_message_to_session" prefixed) w tr
     = call_tool StringToNumber cfg (mkRequest "send_message_to_session" bare) w tr.
Proof.
  intros Hx Hp prefixed bare. unfold prefixed, bare. split.
  - rewrite !call_tool_get. unfold get_devin_session, fetch_messages.
    rewrite !arg_set_same, !(arg_set_other "session_id" "fetch_slack_info")
      by discriminate.
    cbn [Js.ToString]. rewrite normalizeSessionId_strip, (normalizeSessionId_id x Hp), Hx.
    reflexivity.
  - rewrite !call_tool_send. unfold send_message_to_session.
    rewrite !arg_set_same, !(arg_set_other "session_id" "message"),
      !(arg_set_other "session_id" "slack_channel"),
      !(arg_set_other "session_id" "slack_thread_ts") by discriminate.
    cbn [Js.ToString]. rewrite normalizeSessionId_strip, (normalizeSessionId_id x Hp), Hx.
    reflexivity.
Qed.

(** ** The guards on required arguments *)

Lemma starts_with_call_changes_trace {A B} (ev : Event)
    (answer : World -> Trace -> Outcome A) (k : A -> M B) (h : exn -> M B)
    (w : World) (tr : Trace) :
  (forall a, emits (fun _ => True) (k a)) ->
  (forall e, emits (fun _ => True) (h e)) ->
  snd (try_catch (bind (emit ev answer) k) h w tr) <> tr.
Proof.
  intros Hk Hh. destruct (try_starts_with ev answer k h w tr Hk Hh) as (out & d & E).
  rewrite E. apply app_cons_neq.
Qed.

Lemma guard_tests_for_empty_text
    (StringToNumber : string -> number) (cfg : Config) (args : option object)
    (w : World) (tr : Trace) :
  (Str.is_empty (Js.ToString (arg args "prompt")) = true
   <-> call_tool StringToNumber cfg (mkRequest "create_devin_session" args) w tr
       = (Ok (error_result "Error: prompt is required"), tr))
  /\ (Str.is_empty (Js.ToString (arg args "session_id")) = true
      <-> call_tool StringToNumber cfg (mkRequest "get_devin_session" args) w tr
          = (Ok (error_result "Error: session_id is required"), tr))
  /\ (Str.is_empty (Js.ToString (arg args "session_id")) = true
      <-> call_tool StringToNumber cfg (mkRequest "send_message_to_session" args) w tr
          = (Ok (error_result "Error: session_id is required"), tr))
  /\ (Str.is_empty (Js.ToString (arg args "session_id")) = false
      /\ Str.is_empty (Js.ToString (arg args "message")) = true
      <-> call_tool StringToNumber cfg (mkRequest "send_message_to_session" args) w tr
          = (Ok (error_result "Error: message is required"), tr)).
Proof.
  split; [|split; [|split]].
  - rewrite call_tool_create. unfold create_devin_session.
    destruct (Str.is_empty (Js.ToString (arg args "prompt"))).
    + split; reflexivity.
    + split; [discriminate|]. intros H. exfalso.
      apply (f_equal snd) in H. cbn [snd] in H. revert H.
      apply starts_with_call_changes_trace; intros; trace_any.
  - rewrite call_tool_get. unfold get_devin_session.
    destruct (Str.is_empty (Js.ToString (arg args "session_id"))).
    + split; reflexivity.
    + split; [discriminate|]. intros H. exfalso.
      apply (f_equal snd) in H. cbn [snd] in H. revert H.
      apply starts_with_call_changes_trace; intros; trace_any.
  - rewrite call_tool_send. unfold send_message_to_session.
    destruct (Str.is_empty (Js.ToString (arg args "session_id"))).
    + split; reflexivity.
    + split; [discriminate|].
      destruct (Str.is_empty (Js.ToString (arg args "message"))); [discriminate|].
      intros H. exfalso.
      apply (f_equal snd) in H. cbn [snd] in H. revert H.
      apply starts_with_call_changes_trace; intros; trace_any.
  - rewrite call_tool_send. unfold send_message_to_session.
    destruct (Str.is_empty (Js.ToString (arg args "session_id"))).
    + split; [intros [H _]; discriminate | discriminate].
    + destruct (Str.is_empty (Js.ToString (arg args "message"))).
      * split; [reflexivity | now split].
      * split; [intros [_ H]; discriminate|]. intros H. exfalso.
        apply (f_equal snd) in H. cbn [snd] in H. revert H.
        apply starts_with_call_changes_trace; intros; trace_any.
Qed.

(** X23.  What the guards test is the text of the argument.  Once the
    conversions at the head of the case have returned, a tool case returns
    its [... is required] error, without any call, exactly when
    [String(argument)] is the empty text ([send_message_to_session] tests
    the session id first, then the message).  When a conversion throws, no
    guard is reached: the handler throws, whatever the required argument
    is. *)
Theorem required_guard_tests_for_empty_text
    (StringToNumber : string -> number) (cfg : Config) (args : option object)
    (w : World) (tr : Trace) :
  (Convert.converts (mkRequest "create_devin_session" args) = true ->
   (Str.is_empty (Js.ToString (arg args "prompt")) = true
    <-> handle StringToNumber cfg (mkRequest "create_devin_session" args) w tr
        = (Ok (error_result "Error: prompt is required"), tr)))
  /\ (Convert.converts (mkRequest "get_devin_session" args) = true ->
      (Str.is_empty (Js.ToString (arg args "session_id")) = true
       <-> handle StringToNumber cfg (mkRequest "get_devin_session" args) w tr
           = (Ok (error_result "Error: session_id is required"), tr)))
  /\ (Convert.converts (mkRequest "send_message_to_session" args) = true ->
      (Str.is_empty (Js.ToString (arg args "session_id")) = true
       <-> handle StringToNumber cfg (mkRequest "send_message_to_session" args) w tr
           = (Ok (error_result "Error: session_id is required"), tr))
      /\ (Str.is_empty (Js.ToString (arg args "session_id")) = false
          /\ Str.is_empty (Js.ToString (arg args "message")) = true
          <-> handle StringToNumber cfg (mkRequest "send_message_to_session" args) w tr
              = (Ok (error_result "Error: message is required"), tr)))
  /\ (forall tool msg,
         Convert.converts (mkRequest tool args) = false ->
         handle StringToNumber cfg (mkRequest tool args) w tr
         <> (Ok (error_result msg), tr)).
Proof.
  destruct (guard_tests_for_empty_text StringToNumber cfg args w tr)
    as (Hc & Hg & Hs & Hm).
  split; [|split; [|split]].
  - intros H. now rewrite (proj1 (handle_converts StringToNumber cfg _ w tr H)).
  - intros H. now rewrite (proj1 (handle_converts StringToNumber cfg _ w tr H)).
  - intros H. rewrite (proj1 (handle_converts StringToNumber cfg _ w tr H)).
    now split.
  - intros tool msg H.
    rewrite (proj1 (handle_throws StringToNumber cfg _ w tr H)). discriminate.
Qed.

(** ** The body of the create-session call *)

(** X24.  The body posted to the create-session endpoint always has
    [prompt] and a boolean [idempotent].  It has [machine_snapshot_id]
    exactly when that argument is truthy (an empty string is dropped) and
    [max_acu] exactly when the argument converts to a number other than
    zero; it has no other field, so [slack_channel] never reaches the
    agent. *)
Theorem create_body_fields
    (StringToNumber : string -> number) (args : option object) :
  let body :=
    create_request_body (Js.ToString (arg args "prompt"))
      (Js.truthy (arg args "idempotent")) (arg args "machine_snapshot_id")
      (number_or_undefined StringToNumber (arg args "max_acu")) in
  Js.lookup "prompt" body = Some (VStr (Js.ToString (arg args "prompt")))
  /\ Js.lookup "idempotent" body = Some (VBool (Js.truthy (arg args "idempotent")))
  /\ Js.lookup "machine_snapshot_id" body
     = (if Js.truthy (arg args "machine_snapshot_id")
        then Some (arg args "machine_snapshot_id") else None)
  /\ Js.lookup "max_acu" body
     = match ToNumber StringToNumber (arg args "max_acu") with
       | NaN => None
       | Int z => if Z.eqb z 0 then None else Some (VNum (Int z))
       end
  /\ (forall k, k <> "prompt" -> k <> "idempotent" ->
                k <> "machine_snapshot_id" -> k <> "max_acu" ->
                Js.lookup k body = None).
Proof.
  intros body. unfold body, create_request_body, number_or_undefined.
  destruct (Js.truthy (arg args "machine_snapshot_id"));
    destruct (ToNumber StringToNumber (arg args "max_acu")) as [|z]; cbn;
    try destruct (Z.eqb z 0); cbn;
    repeat (split; [reflexivity|]);
    intros k N1 N2 N3 N4;
    repeat match goal with
           | |- context [String.eqb k ?s] =>
               destruct (String.eqb_spec k s); [congruence|]
           end; reflexivity.
Qed.

(** ** The server without Slack: sending a message *)

(** X25.  Without Slack, an answer of the message endpoint that the HTTP
    client resolves (a 2xx status) is reported as a success, without a look
    at its status or its body, and the session id goes into the URL and
    into the result exactly as it was given: no prefix is removed. *)
Theorem plain_send_reports_success
    (StringToNumber : string -> number) (cfg : Config) (args : option object)
    (w : World) (tr0 : Trace) (resp : HttpResponse) :
  let session_id := Js.ToString (arg args "session_id") in
  let message := Js.ToString (arg args "message") in
  let post := AxiosPost (BASE_URL cfg ++ "/session/" ++ session_id ++ "/message")
                        (VObj [("message", VStr message)]) (getHeaders cfg) in
  Str.is_empty session_id = false ->
  Str.is_empty message = false ->
  axios_post w tr0 (BASE_URL cfg ++ "/session/" ++ session_id ++ "/message")
             (VObj [("message", VStr message)]) (getHeaders cfg) = Ok resp ->
  (200 <= status resp < 300)%Z ->
  Plain.call_tool StringToNumber cfg (mkRequest "send_message_to_session" args) w tr0
  = (Ok (ok_result
           (JSON.stringify2
              (VObj [("success", VBool true);
                     ("session_id", VStr session_id);
                     ("message_sent", VStr message);
                     ("response", data resp)]))),
     (tr0 ++ [post])%list).
Proof.
  intros session_id message post Hs Hm H _.
  change (Plain.call_tool StringToNumber cfg (mkRequest "send_message_to_session" args))
    with (Plain.send_message_to_session cfg args).
  unfold Plain.send_message_to_session. fold session_id message. rewrite Hs, Hm.
  unfold try_catch, bind, axiosPost, emit, ret. now rewrite H.
Qed.

(** ** Start-up *)

(** X26.  The server starts exactly when DEVIN_API_KEY, SLACK_BOT_TOKEN and
    SLACK_DEFAULT_CHANNEL are all set to a non-empty value; the first one
    missing, in that order, names the error.  A started server has a
    non-empty API key, organization name, base URL and default channel: an
    organization name or base URL that is unset or empty is replaced by its
    default. *)
Theorem start_checks_configuration (env : Startup.Env) :
  ((exists cfg, Startup.start env = inr cfg)
   <-> Startup.missing (env "DEVIN_API_KEY") = false
       /\ Startup.missing (env "SLACK_BOT_TOKEN") = false
       /\ Startup.missing (env "SLACK_DEFAULT_CHANNEL") = false)
  /\ (Startup.missing (env "DEVIN_API_KEY") = true ->
      Startup.start env = inl "Error: DEVIN_API_KEY is not set")
  /\ (forall cfg,
         Startup.start env = inr cfg ->
         env "DEVIN_API_KEY" = Some (API_KEY cfg)
         /\ env "SLACK_DEFAULT_CHANNEL" = Some (SLACK_DEFAULT_CHANNEL cfg)
         /\ Str.is_empty (API_KEY cfg) = false
         /\ Str.is_empty (SLACK_DEFAULT_CHANNEL cfg) = false
         /\ Str.is_empty (ORG_NAME cfg) = false
         /\ Str.is_empty (BASE_URL cfg) = false
         /\ (Startup.missing (env "DEVIN_ORG_NAME") = true ->
             ORG_NAME cfg = "Default Organization")
         /\ (Startup.missing (env "DEVIN_BASE_URL") = true ->
             BASE_URL cfg = "https://api.devin.ai/v1")).
Proof.
  unfold Startup.start, Startup.validate, Startup.config; cbn.
  destruct (env "DEVIN_API_KEY") as [[|c k]|]; cbn;
    try (split; [split; [intros [cfg H]; discriminate | intros (H & _); discriminate]|];
         split; [reflexivity | intros cfg H; discriminate]).
  destruct (env "SLACK_BOT_TOKEN") as [[|c' t]|]; cbn;
    try (split; [split; [intros [cfg H]; discriminate | intros (_ & H & _); discriminate]|];
         split; [discriminate | intros cfg H; discriminate]).
  destruct (env "SLACK_DEFAULT_CHANNEL") as [[|c'' ch]|]; cbn;
    try (split; [split; [intros [cfg H]; discriminate | intros (_ & _ & H); discriminate]|];
         split; [discriminate | intros cfg H; discriminate]).
  split; [split; [auto | eauto]|]. split; [discriminate|].
  intros cfg H. injection H as <-. cbn.
  repeat (split; [reflexivity|]).
  split; [|split; [|split]].
  - destruct (env "DEVIN_ORG_NAME") as [[|? ?]|]; reflexivity.
  - destruct (env "DEVIN_BASE_URL") as [[|? ?]|]; reflexivity.
  - destruct (env "DEVIN_ORG_NAME") as [[|? ?]|]; cbn; (discriminate || reflexivity).
  - destruct (env "DEVIN_BASE_URL") as [[|? ?]|]; cbn; (discriminate || reflexivity).
Qed.

(** ** The registry and the dispatcher *)

(** X27.  The dispatcher knows exactly the tools the registry lists: a
    request is answered with [Unknown tool: ] and its name, without any
    call, if and only if its name is not one of the five registered
    names. *)
Theorem unknown_tool_iff_unregistered
    (StringToNumber : string -> number) (cfg : Config) (request : Request)
    (w : World) (tr : Trace) :
  call_tool StringToNumber cfg request w tr
  = (Ok (error_result ("Unknown tool: " ++ name request)), tr)
  <-> ~ In (name request) Registry.names.
Proof.
  destruct request as [n a]. cbn [name]. split.
  - intros H Hin. cbn in Hin.
    destruct Hin as [<-|[<-|[<-|[<-|[<-|[]]]]]].
    + rewrite call_tool_create in H. unfold create_devin_session in H.
      destruct (Str.is_empty (Js.ToString (arg a "prompt"))); [discriminate|].
      apply (f_equal snd) in H. cbn [snd] in H. revert H.
      apply starts_with_call_changes_trace; intros; trace_any.
    + rewrite call_tool_get in H. unfold get_devin_session in H.
      destruct (Str.is_empty (Js.ToString (arg a "session_id"))); [discriminate|].
      apply (f_equal snd) in H. cbn [snd] in H. revert H.
      apply starts_with_call_changes_trace; intros; trace_any.
    + rewrite call_tool_list in H. unfold list_devin_sessions in H.
      apply (f_equal snd) in H. cbn [snd] in H. revert H.
      unfold axiosGet. apply starts_with_call_changes_trace; intros; trace_any.
    + rewrite call_tool_send in H. unfold send_message_to_session in H.
      destruct (Str.is_empty (Js.ToString (arg a "session_id"))); [discriminate|].
      destruct (Str.is_empty (Js.ToString (arg a "message"))); [discriminate|].
      apply (f_equal snd) in H. cbn [snd] in H. revert H.
      apply starts_with_call_changes_trace; intros; trace_any.
    + discriminate.
  - intros H. unfold call_tool. cbn [name arguments].
    repeat match goal with
           | |- context [String.eqb n ?s] =>
               destruct (String.eqb_spec n s) as [->|_];
               [exfalso; apply H; cbn; tauto|]
           end.
    reflexivity.
Qed.

(** ** The further properties on concrete deployments *)

Lemma getChannelId_name_is_looked_up_witness :
  Spec.canonical_channel_id "C1234567" = false
  /\ exists o d,
       getChannelId (VStr "C1234567") Sample.world []
       = (o, ([] ++ ConversationsList :: d)%list).
Proof.
  split; [reflexivity|].
  destruct (getChannelId_name_is_looked_up "C1234567" eq_refl Sample.world [])
    as (o & d & E & _).
  now exists o, d.
Defined.

Lemma listing_failure_propagates_witness :
  fst (sendSlackMessage (VStr "general") "hello" (VStr "171.001")
         Sample.world_slack_down [])
  = Throw Sample.slack_down.
Proof.
  destruct (listing_failure_propagates "general" eq_refl Sample.world_slack_down []
              Sample.slack_down "hello" (VStr "171.001") eq_refl) as [_ E].
  now rewrite E.
Defined.

Lemma channel_not_found_witness :
  fst (getChannelId (VStr "#nowhere") Sample.world [])
  = Throw (Error "Error" "Channel not found: #nowhere").
Proof.
  rewrite (channel_not_found "#nowhere" eq_refl Sample.world []
             [("channels",
               VArr [VObj [("name", VStr "general"); ("id", VStr "C0000000001")]])]
             eq_refl).
  - reflexivity.
  - cbn. constructor; [|constructor].
    eexists. split; [reflexivity | discriminate].
Defined.

Lemma resolved_channel_is_listed_witness :
  exists ch,
    In ch [VObj [("name", VStr "random"); ("id", VStr "C0000000002")];
           VObj [("name", VStr "general"); ("id", VStr "C0000000001")]]
    /\ Js.member ch "name" = Ok (VStr "general")
    /\ Js.member ch "id" = Ok (VStr "C0000000001").
Proof.
  destruct (resolved_channel_is_listed "#general" eq_refl Scenario.workspace []
              (VStr "C0000000001") [ConversationsList] eq_refl)
    as (result & chs & ch & Er & Ec & Hin & Hn & Hi & _).
  injection Er as <-. injection Ec as <-.
  exists ch. repeat split; assumption.
Defined.

Lemma hash_prefix_is_optional_witness :
  getChannelId (VStr "#general") Scenario.workspace []
  = (Ok (VStr "C0000000001"), [ConversationsList]).
Proof.
  exact (hash_prefix_is_optional "general" Scenario.workspace [] [ConversationsList]
           (VStr "C0000000001") eq_refl eq_refl eq_refl).
Defined.

Lemma devin_user_is_member_witness :
  exists u,
    Js.opt_member (Js.opt_member u "profile") "display_name" = VStr "Devin"
    /\ Js.opt_member u "id" = VStr "U7".
Proof.
  destruct (devin_user_is_member Scenario.workspace [] [UsersList] (VStr "U7")
              eq_refl eq_refl)
    as (result & members & u & Er & Em & Hin & Hn & Hi & _).
  injection Er as <-. injection Em as <-.
  exists u. split; [|exact Hi].
  destruct Hin as [<-|[<-|[]]]; [discriminate Hi | reflexivity].
Defined.

Lemma create_failure_stops_witness :
  Sample.call Sample.create_request Scenario.world_agent_down
  = (Ok (error_result "Error creating session: undefined - undefined"),
     [AxiosPost "https://api.devin.ai/v1/session"
                (VObj [("prompt", VStr "fix bug"); ("idempotent", VBool false)])
                (getHeaders Sample.cfg)]).
Proof.
  exact (create_failure_stops Sample.StringToNumber Sample.cfg
           (arguments Sample.create_request) Scenario.world_agent_down []
           eq_refl Scenario.network_error eq_refl).
Defined.

Lemma mention_falls_back_witness :
  exists out d,
    Sample.call Sample.create_request Scenario.users_down
    = (out,
       [AxiosPost "https://api.devin.ai/v1/session"
                  (VObj [("prompt", VStr "fix bug"); ("idempotent", VBool false)])
                  (getHeaders Sample.cfg);
        UsersList;
        ConsoleError "Error finding Devin user:"
                     (Some (Error "Error" "An API error occurred: missing_scope"))]
         ++ ChatPostMessage (VStr "C123ABC456") "@Devin fix bug" VUndefined true :: d)%list.
Proof.
  destruct (mention_falls_back Sample.StringToNumber Sample.cfg
              (arguments Sample.create_request) Scenario.users_down [] eq_refl
              (mkResponse 200 Sample.session)
              (Error "Error" "An API error occurred: missing_scope")
              (VStr "C123ABC456")
              [AxiosPost "https://api.devin.ai/v1/session"
                         (VObj [("prompt", VStr "fix bug"); ("idempotent", VBool false)])
                         (getHeaders Sample.cfg);
               UsersList;
               ConsoleError "Error finding Devin user:"
                            (Some (Error "Error" "An API error occurred: missing_scope"))]
              eq_refl eq_refl eq_refl)
    as (out & d & E & _).
  exists out, d. exact E.
Defined.



Lemma relay_only_after_success_witness :
  Sample.call Sample.send_request_with_thread Scenario.world_redirect
  = (Ok (error_result ("Error sending message: 302 - " ++ Cases.q EmptyString)),
     [AxiosPost "https://api.devin.ai/v1/session/abc/message"
                (VObj [("message", VStr "hello")]) (getHeaders Sample.cfg)])
  /\ snd (Sample.call Sample.send_request Sample.world)
     = [AxiosPost "https://api.devin.ai/v1/session/abc/message"
                  (VObj [("message", VStr "hello")]) (getHeaders Sample.cfg)].
Proof.
  split.
  - exact (proj1 (relay_only_after_success Sample.StringToNumber Sample.cfg
                    (arguments Sample.send_request_with_thread)
                    Scenario.world_redirect [] eq_refl eq_refl)
                 Scenario.redirected eq_refl).
  - pose proof (proj2 (relay_only_after_success Sample.StringToNumber Sample.cfg
                         (arguments Sample.send_request) Sample.world []
                         eq_refl eq_refl)
                      (mkResponse 200 Sample.session) eq_refl) as E.
    unfold Sample.call, run.
    change (call_tool Sample.StringToNumber Sample.cfg Sample.send_request
              Sample.world [])
      with (call_tool Sample.StringToNumber Sample.cfg
              (mkRequest "send_message_to_session" (arguments Sample.send_request))
              Sample.world []).
    rewrite E; [reflexivity | cbn; lia | reflexivity].
Defined.

Lemma relay_posts_the_message_witness :
  snd (Sample.call Sample.send_request_with_thread Sample.world)
  = [AxiosPost "https://api.devin.ai/v1/session/abc/message"
               (VObj [("message", VStr "hello")]) (getHeaders Sample.cfg);
     ConversationsList;
     ChatPostMessage (VStr "C0000000001") "hello" (VStr "171.001") true].
Proof.
  pose proof (relay_posts_the_message Sample.StringToNumber Sample.cfg
                (arguments Sample.send_request_with_thread) Sample.world []
                eq_refl eq_refl (mkResponse 200 Sample.session)
                (VStr "C0000000001")
                [AxiosPost "https://api.devin.ai/v1/session/abc/message"
                           (VObj [("message", VStr "hello")]) (getHeaders Sample.cfg);
                 ConversationsList]
                [("ok", VBool true); ("ts", VStr "171.001")]
                eq_refl) as E.
  unfold Sample.call, run.
  change (call_tool Sample.StringToNumber Sample.cfg Sample.send_request_with_thread
            Sample.world [])
    with (call_tool Sample.StringToNumber Sample.cfg
            (mkRequest "send_message_to_session"
               (arguments Sample.send_request_with_thread))
            Sample.world []).
  rewrite E; [reflexivity | cbn; lia | reflexivity | reflexivity | reflexivity].
Defined.

Lemma get_failure_skips_history_witness :
  Sample.call Sample.get_request_with_history Scenario.world_agent_down
  = (Ok (error_result "Error getting session: undefined - undefined"),
     [AxiosGet "https://api.devin.ai/v1/session/abc" [] (getHeaders Sample.cfg)]).
Proof.
  exact (get_failure_skips_history Sample.StringToNumber Sample.cfg
           (arguments Sample.get_request_with_history) Scenario.world_agent_down []
           eq_refl Scenario.network_error eq_refl).
Defined.

Lemma history_is_merged_witness :
  exists payload,
    text_of (Sample.call Sample.get_request_with_history Scenario.workspace)
    = JSON.stringify2 payload
    /\ Js.opt_member payload "messages" = VArr [VObj [("message", VStr "hi")]]
    /\ Js.opt_member payload "url" = VStr "https://app.devin.ai/sessions/abc".
Proof.
  destruct (history_is_merged Sample.StringToNumber Sample.cfg
              (arguments Sample.get_request_with_history) Scenario.workspace []
              eq_refl (mkResponse 200 Sample.session)
              (mkResponse 200 (VObj [("messages", VArr [VObj [("message", VStr "hi")]])]))
              [("session_id", VStr "devin-abc");
               ("url", VStr "https://app.devin.ai/sessions/abc");
               ("is_new_session", VBool true)]
              [("messages", VArr [VObj [("message", VStr "hi")]])]
              eq_refl eq_refl eq_refl I eq_refl eq_refl)
    as (payload & E & Hm & Ho).
  exists payload. unfold Sample.call, run, text_of.
  change (call_tool Sample.StringToNumber Sample.cfg Sample.get_request_with_history
            Scenario.workspace [])
    with (call_tool Sample.StringToNumber Sample.cfg
            (mkRequest "get_devin_session"
               (arguments Sample.get_request_with_history))
            Scenario.workspace []).
  rewrite E. split; [reflexivity|]. split; [exact Hm|].
  now rewrite (Ho "url") by discriminate.
Defined.

Lemma list_issues_one_query_witness :
  run (handle Sample.StringToNumber Sample.cfg
         (mkRequest "list_devin_sessions" Scenario.paged)) Sample.world
  = (fst (Sample.call (mkRequest "list_devin_sessions" Scenario.paged) Sample.world),
     [AxiosGet "https://api.devin.ai/v1/session" [("limit", VNum (Int 10))]
               (getHeaders Sample.cfg)])
  /\ run (handle Sample.StringToNumber Sample.cfg Cases.list_shadowed) Sample.world
     = (Throw Convert.not_primitive, []).
Proof.
  split.
  - destruct (proj1 (list_issues_one_query Sample.StringToNumber Sample.cfg
                       Scenario.paged Sample.world []) eq_refl) as (E & _).
    unfold run in *. rewrite (surjective_pairing (handle _ _ _ _ _)), E.
    reflexivity.
  - exact (proj2 (list_issues_one_query Sample.StringToNumber Sample.cfg
                    (arguments Cases.list_shadowed) Sample.world []) eq_refl).
Defined.

Lemma list_bare_array_witness :
  text_of (Sample.call Sample.list_request Scenario.world_bare_array)
  = JSON.stringify2
      (VObj [("0", VObj [("session_id", VStr "devin-1")]);
             ("1", VObj [("session_id", VStr "devin-2")])]).
Proof.
  pose proof (list_bare_array Sample.StringToNumber Sample.cfg None
                Scenario.world_bare_array [] (mkResponse 200 (VArr Scenario.bare_sessions))
                Scenario.bare_sessions eq_refl eq_refl) as E.
  unfold Sample.call, run, text_of.
  change (call_tool Sample.StringToNumber Sample.cfg Sample.list_request
            Scenario.world_bare_array [])
    with (call_tool Sample.StringToNumber Sample.cfg
            (mkRequest "list_devin_sessions" None) Scenario.world_bare_array []).
  now rewrite E.
Defined.

Lemma list_bad_entry_fails_witness :
  isError_of (Sample.call Sample.list_request Scenario.world_null_entry) = Some true.
Proof.
  destruct (list_bad_entry_fails Sample.StringToNumber Sample.cfg None
              Scenario.world_null_entry []
              (mkResponse 200
                 (VObj [("sessions",
                         VArr [VObj [("session_id", VStr "devin-1")]; VNull])]))
              [VObj [("session_id", VStr "devin-1")]; VNull] VNull
              eq_refl eq_refl (or_intror (or_introl eq_refl)) (or_introl eq_refl))
    as (e & E & He).
  unfold Sample.call, run, isError_of.
  change (call_tool Sample.StringToNumber Sample.cfg Sample.list_request
            Scenario.world_null_entry [])
    with (call_tool Sample.StringToNumber Sample.cfg
            (mkRequest "list_devin_sessions" None) Scenario.world_null_entry []).
  rewrite E. cbn [fst]. now rewrite He.
Defined.

Lemma session_prefix_is_optional_witness :
  Sample.call (mkRequest "get_devin_session" (Some [("session_id", VStr "devin-abc")]))
              Sample.world
  = Sample.call (mkRequest "get_devin_session" (Some [("session_id", VStr "abc")]))
                Sample.world.
Proof.
  exact (proj1 (session_prefix_is_optional Sample.StringToNumber Sample.cfg
                  [] "abc" Sample.world [] eq_refl eq_refl)).
Defined.

Lemma required_guard_tests_for_empty_text_witness :
  run (handle Sample.StringToNumber Sample.cfg
         (mkRequest "create_devin_session" (Some [("prompt", VArr [])]))) Sample.world
  = (Ok (error_result "Error: prompt is required"), [])
  /\ run (handle Sample.StringToNumber Sample.cfg Cases.create_shadowed) Sample.world
     <> (Ok (error_result "Error: prompt is required"), []).
Proof.
  split.
  - exact (proj1 (proj1 (required_guard_tests_for_empty_text Sample.StringToNumber
                           Sample.cfg (Some [("prompt", VArr [])]) Sample.world [])
                        eq_refl)
                 eq_refl).
  - exact (proj2 (proj2 (proj2 (required_guard_tests_for_empty_text
                                  Sample.StringToNumber Sample.cfg
                                  (arguments Cases.create_shadowed) Sample.world [])))
                 "create_devin_session" "Error: prompt is required" eq_refl).
Defined.

Lemma create_body_fields_witness :
  Js.lookup "slack_channel"
    (create_request_body "fix bug" false VUndefined
       (number_or_undefined Sample.StringToNumber VUndefined)) = None.
Proof.
  destruct (create_body_fields Sample.StringToNumber (Scenario.create_in "#general"))
    as (_ & _ & _ & _ & H).
  apply (H "slack_channel"); discriminate.
Defined.

Lemma plain_send_reports_success_witness :
  run (Plain.call_tool Sample.StringToNumber Sample.cfg Sample.send_request)
      Sample.world
  = (Ok (ok_result
           (JSON.stringify2
              (VObj [("success", VBool true);
                     ("session_id", VStr "devin-abc");
                     ("message_sent", VStr "hello");
                     ("response", Sample.session)]))),
     [AxiosPost "https://api.devin.ai/v1/session/devin-abc/message"
                (VObj [("message", VStr "hello")]) (getHeaders Sample.cfg)]).
Proof.
  pose proof (plain_send_reports_success Sample.StringToNumber Sample.cfg
                (arguments Sample.send_request) Sample.world []
                (mkResponse 200 Sample.session) eq_refl eq_refl eq_refl) as E.
  unfold run.
  change (Plain.call_tool Sample.StringToNumber Sample.cfg Sample.send_request
            Sample.world [])
    with (Plain.call_tool Sample.StringToNumber Sample.cfg
            (mkRequest "send_message_to_session" (arguments Sample.send_request))
            Sample.world []).
  rewrite E; [reflexivity | cbn; lia].
Defined.

Lemma handler_throws_only_on_conversion_witness :
  (exists res,
      fst (run (handle Sample.StringToNumber Sample.cfg Sample.get_request)
               Scenario.world_agent_down) = Ok res)
  /\ run (handle Sample.StringToNumber Sample.cfg Cases.create_shadowed) Sample.world
     = (Throw Convert.not_primitive, [])
  /\ run (plain_handle Sample.StringToNumber Sample.cfg Cases.list_shadowed)
         Sample.world
     = (Throw Convert.not_primitive, []).
Proof.
  split; [|split].
  - exact (proj1 (proj1 (handler_throws_only_on_conversion Sample.StringToNumber
                           Sample.cfg Sample.get_request Scenario.world_agent_down [])
                        eq_refl)).
  - exact (proj1 (proj2 (handler_throws_only_on_conversion Sample.StringToNumber
                           Sample.cfg Cases.create_shadowed Sample.world [])
                        eq_refl)).
  - exact (proj2 (proj2 (handler_throws_only_on_conversion Sample.StringToNumber
                           Sample.cfg Cases.list_shadowed Sample.world [])
                        eq_refl)).
Defined.

Lemma start_checks_configuration_witness :
  Startup.start Scenario.env
  = inr {| API_KEY := "key";
           ORG_NAME := "Default Organization";
           BASE_URL := "https://api.devin.ai/v1";
           SLACK_DEFAULT_CHANNEL := "general" |}.
Proof.
  destruct (start_checks_configuration Scenario.env) as ([_ H] & _ & Hc).
  destruct H as [cfg E]; [repeat split; reflexivity|].
  destruct (Hc cfg E) as (Hk & Hch & _ & _ & _ & _ & Ho & Hb).
  rewrite E. destruct cfg as [k o b c]. cbn in *.
  injection Hk as <-. injection Hch as <-.
  now rewrite (Ho eq_refl), (Hb eq_refl).
Defined.

Lemma unknown_tool_iff_unregistered_witness :
  Sample.call (mkRequest "delete_session" None) Sample.world
  = (Ok (error_result "Unknown tool: delete_session"), []).
Proof.
  apply (proj2 (unknown_tool_iff_unregistered Sample.StringToNumber Sample.cfg
                  (mkRequest "delete_session" None) Sample.world [])).
  cbn. intros [H|[H|[H|[H|[H|[]]]]]]; discriminate H.
Defined.
